(** * Smart-farm backend: irrigation control loop and manual-control API

    A shallow embedding of [smart_irrigation.py] (the Raspberry Pi control
    loop) and of the manual-control and sensor-ingestion paths of [app.py]
    (the FastAPI backend), with the properties of the design document
    stated and settled against the code.

    Conventions.
    - Python [int] is [Z].
    - Python [float] values (clock readings, probabilities, percentages)
      are rationals [Q]: every finite binary64 value is a rational, the
      comparisons of the loop are exact on them, and the only arithmetic
      on clock readings is a difference of two nearby readings.  The one
      place where binary64 rounding could matter, [adc_to_pct], is also
      given in binary64 ([adc_to_pct_b64]) and compared with the rational
      version on the whole calibrated range.
    - Python [str] is [string]; the reason tags are the literals of the
      source (["AI"], ["EMERGENCY"], ["NO"], ["MANUAL"]). *)

From stdpp Require Import base gmap strings.
From Stdlib Require Import ZArith QArith Qround Lqa Lia Bool List String Ascii.
From Stdlib Require Import Floats.
From Stdlib Require Import Orders Sorted Permutation Mergesort.
Import ListNotations.

(* ===================================================================== *)
(** * Part I: the programs                                                *)
(* ===================================================================== *)

(** ** smart_irrigation.py *)

Module Irrigation.

Local Open Scope Q_scope.

(** *** User settings (lines 19-43) *)

Definition WET : Z := 233.
Definition DRY : Z := 619.
Definition EMERGENCY_ON_PCT : Q := 20.
Definition BURST_ON_SEC : Q := 4.
Definition REST_SEC : Q := 5.
Definition MIN_ON_SEC : Q := 6.
Definition MIN_OFF_SEC : Q := 3.
Definition MAX_ON_SEC : Q := 60.
Definition MAX_MIN_PER_HOUR : Q := 8.
Definition HOURLY_BUCKET : Z := 3600.
Definition REPORT_INTERVAL : Q := 5.
Definition CONTROL_CHECK_INTERVAL : Q := 3.
Definition THRESH_OVERRIDE : option Q := None.

(** *** Soil percentage (lines 83-85) *)

(** Nearest integer, ties to the even one: the rounding rule of Python's
    [round]. *)
Definition round_half_even (q : Q) : Z :=
  let f := Qfloor q in
  match Qcompare (q - inject_Z f) (1 # 2) with
  | Lt => f
  | Gt => (f + 1)%Z
  | Eq => if Z.even f then f else (f + 1)%Z
  end.

(** [round(x, 1)]: the nearest multiple of one tenth, in lowest terms. *)
Definition round1 (x : Q) : Q := Qred (inject_Z (round_half_even (x * 10)) / 10).

(** [adc_to_pct(v, wet, dry)].  [None] is the [ZeroDivisionError] Python
    raises when [dry = wet]. *)
Definition adc_to_pct (v wet dry : Z) : option Q :=
  let v := Z.max (Z.min v dry) wet in
  if (dry - wet =? 0)%Z then None
  else Some (round1 (100 * inject_Z (dry - v) / inject_Z (dry - wet))).

(** The same computation on binary64 floats, as CPython performs it: the
    product and the quotient are rounded to binary64, and [round(x, 1)]
    rounds the exact value of the resulting double to one decimal (ties to
    even).  The value returned is the decimal [k/10]; CPython hands back
    the double nearest to it. *)
Definition Q_of_float (x : float) : option Q :=
  match Prim2SF x with
  | S754_zero _ => Some 0
  | S754_finite s m e =>
      let mag := inject_Z (Z.pos m) * Qpower 2 e in
      Some (if s then - mag else mag)
  | _ => None
  end.

Definition float_of_Z (z : Z) : float :=
  if (z <? 0)%Z then PrimFloat.opp (PrimFloat.of_uint63 (Uint63.of_Z (- z)))
  else PrimFloat.of_uint63 (Uint63.of_Z z).

Definition adc_to_pct_b64 (v wet dry : Z) : option Q :=
  let v := Z.max (Z.min v dry) wet in
  if (dry - wet =? 0)%Z then None
  else
    let x := PrimFloat.div (PrimFloat.mul 100%float (float_of_Z (dry - v)))
                           (float_of_Z (dry - wet)) in
    match Q_of_float x with
    | Some q => Some (round1 q)
    | None => None
    end.

(** *** Model loading (lines 47-58) *)

(** What [joblib.load(MODEL_PATH)] does: it returns the pickled bundle, a
    dict that may hold the keys ["model"], ["features"] and ["threshold"],
    or it raises.  The predictor itself is opaque: the value
    [MODEL.predict_proba] returns on a tick is an input of that tick. *)
Record Bundle := {
  has_model : bool;
  has_features : bool;
  threshold : option Q
}.

Inductive load_outcome :=
| Loaded (bundle : Bundle)
| FileNotFoundError
| OtherException.

(** The module-level globals fixed at start-up.  [MODEL = false] stands
    for [MODEL = None]. *)
Record Config := {
  MODEL : bool;
  THRESH : Q
}.

(** Lines 47-58.  [None]: an exception left the [try] uncaught and the
    interpreter exits (only [FileNotFoundError] is handled; a missing key
    of the bundle raises [KeyError]).  [6 # 100] stands for the literal
    [0.06]. *)
Definition startup (o : load_outcome) : option Config :=
  let loaded :=
    match o with
    | Loaded b =>
        if has_model b && has_features b
        then Some {| MODEL := true; THRESH := default (6 # 100) (threshold b) |}
        else None
    | FileNotFoundError => Some {| MODEL := false; THRESH := 0 |}
    | OtherException => None
    end in
  match loaded, THRESH_OVERRIDE with
  | Some c, Some t => Some {| MODEL := MODEL c; THRESH := t |}
  | _, _ => loaded
  end.

(** *** API functions (lines 109-141) *)

(** JSON values of the two bodies exchanged with the server (both are flat
    objects). *)
Inductive json :=
| JNull
| JBool (b : bool)
| JNum (q : Q)
| JStr (s : string).

(** [send_sensor_data]: the payload dict handed to [requests.post(json=...)],
    in key order.  The answer of the server is not looked at. *)
Definition send_sensor_data (temp hum : option Q) (soil_pct : Q)
    (irrigation_status : bool) (ai_reason : string) : list (string * json) :=
  let temp_safe := match temp with Some t => t | None => 25 end in
  let hum_safe := match hum with Some h => h | None => 50 end in
  let ai_decision_text :=
    if irrigation_status
    then String.append "Irrigation required (Reason: " (String.append ai_reason ")")
    else "Irrigation not required"%string in
  [ ("temperature"%string, JNum temp_safe);
    ("humidity"%string, JNum hum_safe);
    ("soil_moisture"%string, JNum soil_pct);
    ("irrigation_status"%string, JBool irrigation_status);
    ("ai_decision"%string, JStr ai_decision_text) ].

(** What [requests.get(CONTROL_STATUS_ENDPOINT)] followed by
    [response.json()] can produce: an exception of the [requests] family
    (connection error, timeout, undecodable body), or a status code with
    the two fields of the body as [data.get] finds them ([None]: the key
    is absent). *)
Inductive poll_result :=
| RequestException
| Response (status_code : Z) (manual_enabled pump_command : option bool).

Definition get_manual_control_status (r : poll_result) : bool * bool :=
  match r with
  | Response status_code manual_enabled pump_command =>
      if (status_code =? 200)%Z
      then (default false manual_enabled, default false pump_command)
      else (false, false)
  | RequestException => (false, false)
  end.

(** *** Status variables (lines 151-161) *)

Record State := {
  pump_on : bool;
  last_change : Q;
  on_start : Q;
  rest_until : Q;
  hour_window_start : Q;
  run_sec_this_hour : Z;
  last_report_time : Q;
  last_control_check : Q;
  last_manual_enabled : bool
}.

(** The four clock readings taken while the module initialises. *)
Definition initial_state (t_change t_hour t_report t_check : Q) : State :=
  {| pump_on := false; last_change := t_change; on_start := 0; rest_until := 0;
     hour_window_start := t_hour; run_sec_this_hour := 0;
     last_report_time := t_report; last_control_check := t_check;
     last_manual_enabled := false |}.

(** *** One iteration of the loop (lines 173-298) *)

(** What one iteration reads from the outside: the clock, the soil
    percentage of section 1 ([adc_to_pct] of the smoothed reading), the
    air readings, what a poll of the server would answer, and what the
    predictor would answer. *)
Record Input := {
  now : Q;
  soil : Q;
  temp : option Q;
  hum : option Q;
  control_response : poll_result;
  model_proba : Q
}.

(** Which of the three messages of lines 270-275 is printed. *)
Inductive off_cause := SafetyCutoff | ManualOff | PulseEnd.

(** What one iteration shows: the manual state the decision used, the
    probability, decision and reason tag logged, the calls of [relay_set]
    in order, the cause printed on a switch-off, and the payload pushed
    when a report was due. *)
Record Output := {
  out_manual : bool * bool;
  out_proba : Q;
  out_decision : bool;
  out_reason : string;
  out_relay : list bool;
  out_off : option off_cause;
  out_report : option (list (string * json))
}.

Definition Qlt_bool (x y : Q) : bool := negb (Qle_bool y x).

(** Lines 177-179. *)
Definition update_hour_window (now : Q) (s : State) : State :=
  if Qle_bool (inject_Z HOURLY_BUCKET) (now - hour_window_start s)
  then {| pump_on := pump_on s; last_change := last_change s; on_start := on_start s;
          rest_until := rest_until s;
          hour_window_start := now; run_sec_this_hour := 0;
          last_report_time := last_report_time s;
          last_control_check := last_control_check s;
          last_manual_enabled := last_manual_enabled s |}
  else s.

(** Line 204: is a poll of the manual-control endpoint due? *)
Definition poll_due (now : Q) (s : State) : bool :=
  Qle_bool CONTROL_CHECK_INTERVAL (now - last_control_check s).

(** Lines 200-206: the two locals start at [False] on every iteration and
    are assigned only when a poll is made. *)
Definition manual_override_check (now : Q) (r : poll_result) (s : State)
    : bool * bool :=
  if poll_due now s then get_manual_control_status r else (false, false).

(** Lines 217-233. *)
Definition score (cfg : Config) (model_proba : Q) : Q :=
  if MODEL cfg then model_proba else 0.

(** Lines 235-246. *)
Definition decision (proba thresh soil emergency_on_pct : Q)
    (manual_enabled pump_command_manual : bool) : bool * string :=
  let decision_ai := Qle_bool thresh proba in
  let decision_emg := Qle_bool soil emergency_on_pct in
  if manual_enabled
  then (pump_command_manual, "MANUAL"%string)
  else (decision_ai || decision_emg,
        if decision_ai then "AI"%string
        else if decision_emg then "EMERGENCY"%string else "NO"%string).

(** Lines 248-258: the switch-on test. *)
Definition turns_on (now : Q) (final_decision : bool) (s : State) : bool :=
  let in_rest := Qlt_bool now (rest_until s) in
  negb (pump_on s) && final_decision && negb in_rest
  && Qle_bool MIN_OFF_SEC (now - last_change s)
  && Qlt_bool (inject_Z (run_sec_this_hour s) / 60) MAX_MIN_PER_HOUR.

Definition switch_on (now : Q) (s : State) : State :=
  {| pump_on := true; last_change := now; on_start := now;
     rest_until := rest_until s;
     hour_window_start := hour_window_start s;
     run_sec_this_hour := run_sec_this_hour s;
     last_report_time := last_report_time s;
     last_control_check := last_control_check s;
     last_manual_enabled := last_manual_enabled s |}.

(** Lines 261-275: the switch-off test and its cause. *)
Definition is_safety_cut_off (now : Q) (s : State) : bool :=
  pump_on s && Qle_bool MAX_ON_SEC (now - on_start s).

Definition is_pulse_end (now : Q) (s : State) : bool :=
  pump_on s && Qle_bool BURST_ON_SEC (now - on_start s).

Definition is_manual_off (manual_enabled pump_command_manual : bool) (s : State) : bool :=
  manual_enabled && pump_on s && negb pump_command_manual.

Definition turns_off (now : Q) (manual_enabled pump_command_manual : bool)
    (s : State) : bool :=
  (is_safety_cut_off now s || is_pulse_end now s
   || is_manual_off manual_enabled pump_command_manual s)
  && Qle_bool MIN_ON_SEC (now - last_change s).

Definition switch_off (now : Q) (s : State) : State :=
  {| pump_on := false; last_change := now; on_start := on_start s;
     rest_until := now + REST_SEC;
     hour_window_start := hour_window_start s;
     run_sec_this_hour := run_sec_this_hour s;
     last_report_time := last_report_time s;
     last_control_check := last_control_check s;
     last_manual_enabled := last_manual_enabled s |}.

Definition cause (now : Q) (manual_enabled pump_command_manual : bool)
    (s : State) : off_cause :=
  if is_safety_cut_off now s then SafetyCutoff
  else if is_manual_off manual_enabled pump_command_manual s then ManualOff
  else PulseEnd.

(** Lines 278-279. *)
Definition count_run (s : State) : Z :=
  if pump_on s then Z.min HOURLY_BUCKET (run_sec_this_hour s + 1)
  else run_sec_this_hour s.

(** Line 282: is a report due? *)
Definition report_due (now : Q) (s : State) : bool :=
  Qle_bool REPORT_INTERVAL (now - last_report_time s).

(** The body of the [while True] loop, sections 2 to 6, in source order.
    The [global] statement of line 174 binds nothing at module level and
    is left out (CPython 3 refuses it there, after the assignment of line
    151; the loop is read as it stands without it). *)
Definition tick (cfg : Config) (s : State) (i : Input) : State * Output :=
  let now := now i in
  let s1 := update_hour_window now s in
  let '(manual_enabled, pump_command_manual) :=
    manual_override_check now (control_response i) s1 in
  let polled := poll_due now s1 in
  let proba := score cfg (model_proba i) in
  let '(final_decision, reason) :=
    decision proba (THRESH cfg) (soil i) EMERGENCY_ON_PCT
             manual_enabled pump_command_manual in
  let on := turns_on now final_decision s1 in
  let s2 := if on then switch_on now s1 else s1 in
  let off := turns_off now manual_enabled pump_command_manual s2 in
  let s3 := if off then switch_off now s2 else s2 in
  let reported := report_due now s3 in
  ({| pump_on := pump_on s3; last_change := last_change s3;
      on_start := on_start s3; rest_until := rest_until s3;
      hour_window_start := hour_window_start s3;
      run_sec_this_hour := count_run s3;
      last_report_time := if reported then now else last_report_time s3;
      last_control_check := if polled then now else last_control_check s3;
      last_manual_enabled := manual_enabled |},
   {| out_manual := (manual_enabled, pump_command_manual);
      out_proba := proba;
      out_decision := final_decision;
      out_reason := reason;
      out_relay := (if on then [true] else []) ++ (if off then [false] else []);
      out_off := if off
                 then Some (cause now manual_enabled pump_command_manual s2)
                 else None;
      out_report := if reported
                    then Some (send_sensor_data (temp i) (hum i) (soil i)
                                                (pump_on s3) reason)
                    else None |}).

(** *** Runs of the loop *)

(** One executed iteration: the state it started from, what it read, the
    state it left and what it showed. *)
Record Step := {
  before : State;
  input : Input;
  after : State;
  out : Output
}.

Definition step (cfg : Config) (s : State) (i : Input) : Step :=
  {| before := s; input := i; after := fst (tick cfg s i); out := snd (tick cfg s i) |}.

(** The iterations the loop executes on a sequence of readings. *)
Fixpoint run (cfg : Config) (s : State) (ins : list Input) : list Step :=
  match ins with
  | [] => []
  | i :: rest => step cfg s i :: run cfg (fst (tick cfg s i)) rest
  end.

(** The part of the state the actuator owns. *)
Definition pump_state (s : State) : bool * Q * Q * Q :=
  (pump_on s, last_change s, on_start s, rest_until s).

Definition turned_on (st : Step) : bool :=
  negb (pump_on (before st)) && pump_on (after st).

Definition turned_off (st : Step) : bool :=
  pump_on (before st) && negb (pump_on (after st)).

(** The three ways an iteration can leave the actuator. *)
Inductive pump_move (cfg : Config) (s : State) (i : Input) : Prop :=
| Stays :
    pump_state (after (step cfg s i)) = pump_state s ->
    pump_move cfg s i
| SwitchesOn :
    pump_on s = false ->
    turns_on (now i) (out_decision (out (step cfg s i))) (update_hour_window (now i) s) = true ->
    pump_state (after (step cfg s i)) = (true, now i, now i, rest_until s) ->
    pump_move cfg s i
| SwitchesOff :
    pump_on s = true ->
    turns_off (now i) (fst (out_manual (out (step cfg s i))))
              (snd (out_manual (out (step cfg s i)))) (update_hour_window (now i) s) = true ->
    pump_state (after (step cfg s i)) = (false, now i, on_start s, now i + REST_SEC) ->
    pump_move cfg s i.

(** *** Scenarios *)

(** A controller with the model loaded and the stored threshold 0.06, one
    with the model file missing, and the state right after start-up at
    clock reading 0. *)
Definition loaded : Config := {| MODEL := true; THRESH := 6 # 100 |}.
Definition fallback : Config := {| MODEL := false; THRESH := 0 |}.
Definition boot : State := initial_state 0 0 0 0.

Definition reading (t soil_pct : Q) (r : poll_result) (p : Q) : Input :=
  {| now := t; soil := soil_pct; temp := Some 22; hum := Some 40;
     control_response := r; model_proba := p |}.

(** Dry soil (10.1 %, the reading 580), a silent predictor, the server out
    of reach; an iteration every 1.6 s. *)
Definition dry_offline : list Input :=
  map (fun t => reading t (101 # 10) RequestException 0)
      [8 # 5; 16 # 5; 24 # 5; 32 # 5; 8; 48 # 5; 56 # 5; 64 # 5; 72 # 5; 16].

(** The same, with the third iteration held up until clock reading 70. *)
Definition dry_stalled : list Input :=
  map (fun t => reading t (101 # 10) RequestException 0) [8 # 5; 16 # 5; 70].

(** The dry, offline run carried on for 602 iterations, one every 1.6 s,
    up to clock reading 963.2. *)
Definition dry_long : list Input :=
  map (fun n => reading ((8 * Z.of_nat n) # 5) (101 # 10) RequestException 0)
      (seq 1 602).

(** Dry soil; the server answers automatic mode at first and, from clock
    reading 4.8 on, manual mode with the pump commanded off. *)
Definition dry_manual_off : list Input :=
  [ reading (8 # 5) (101 # 10) (Response 200 (Some false) (Some false)) 0;
    reading (16 # 5) (101 # 10) (Response 200 (Some false) (Some false)) 0;
    reading (24 # 5) (101 # 10) (Response 200 (Some true) (Some false)) 0;
    reading (32 # 5) (101 # 10) (Response 200 (Some true) (Some false)) 0;
    reading 8 (101 # 10) (Response 200 (Some true) (Some false)) 0;
    reading (48 # 5) (101 # 10) (Response 200 (Some true) (Some false)) 0 ].

(** Wet soil; the server answers manual mode with the pump commanded on,
    then drops out. *)
Definition wet_manual_lost : list Input :=
  [ reading (8 # 5) 100 (Response 200 (Some true) (Some true)) 0;
    reading (16 # 5) 100 (Response 200 (Some true) (Some true)) 0;
    reading (24 # 5) 100 (Response 200 (Some true) (Some true)) 0;
    reading (32 # 5) 100 RequestException 0 ].

(** Wet soil (100 %), the server out of reach. *)
Definition wet_offline : list Input :=
  map (fun t => reading t 100 RequestException 0) [8 # 5; 16 # 5; 24 # 5].

End Irrigation.

(** ** app.py *)

Module Backend.

Local Open Scope Z_scope.

(** *** ORM models (lines 42-69) *)

(** A row of [manual_control]. *)
Record DBManualControl := {
  id : Z;
  manual_enabled : bool;
  pump_command : bool;
  timestamp : Z
}.

(** *** Pydantic schemas (lines 78-122) *)

Record SensorDataBase := {
  temperature : Q;
  humidity : Q;
  soil_moisture : Q;
  irrigation_status : bool;
  ai_decision : string
}.

Record ManualControlUpdate := {
  upd_manual_enabled : bool;
  upd_pump_command : bool
}.

(** A row of [sensor_data]: the key and time stamp the database assigns,
    and the columns of the schema. *)
Record DBSensorData := {
  row_id : Z;
  row_timestamp : Z;
  row_data : SensorDataBase
}.

(** The value bound to a key of a JSON object; of several bindings of one
    key the last one counts, as [json.loads] has it. *)
Fixpoint field (key : string) (obj : list (string * Irrigation.json))
    : option Irrigation.json :=
  match obj with
  | [] => None
  | (k, v) :: rest =>
      match field key rest with
      | Some w => Some w
      | None => if String.eqb key k then Some v else None
      end
  end.

(** The schemas are validated by Pydantic in its default (lax) mode, which
    also takes values of other JSON types than the declared one.  What it
    reads in a string is the library's matter and is not in this
    repository: the two readings are parameters of everything below, and
    every property is proved for all of them. *)
Class Lax := {
  str_as_bool : string -> option bool;
  str_as_float : string -> option Q
}.

Section Validation.

Context {lax : Lax}.

(** Validation of one field against its declared type.  A [float] field
    takes a number as it is, a bool as 1.0 or 0.0, and a string by
    [str_as_float]. *)
Definition as_float (v : option Irrigation.json) : option Q :=
  match v with
  | Some (Irrigation.JNum q) => Some q
  | Some (Irrigation.JBool b) => Some (if b then 1%Q else 0%Q)
  | Some (Irrigation.JStr s) => str_as_float s
  | _ => None
  end.

(** A [bool] field takes a bool as it is, the numbers 0 and 1, and a
    string by [str_as_bool]. *)
Definition as_bool (v : option Irrigation.json) : option bool :=
  match v with
  | Some (Irrigation.JBool b) => Some b
  | Some (Irrigation.JNum q) =>
      if Qeq_bool q 0%Q then Some false
      else if Qeq_bool q 1%Q then Some true else None
  | Some (Irrigation.JStr s) => str_as_bool s
  | _ => None
  end.

(** A [str] field takes a string only. *)
Definition as_str (v : option Irrigation.json) : option string :=
  match v with Some (Irrigation.JStr s) => Some s | _ => None end.

(** Parsing a request body as [SensorDataCreate]; [None] is the 422 answer
    of a failed validation. *)
Definition parse_SensorDataCreate (obj : list (string * Irrigation.json))
    : option SensorDataBase :=
  t ← as_float (field "temperature" obj);
  h ← as_float (field "humidity" obj);
  m ← as_float (field "soil_moisture" obj);
  st ← as_bool (field "irrigation_status" obj);
  d ← as_str (field "ai_decision" obj);
  Some {| temperature := t; humidity := h; soil_moisture := m;
          irrigation_status := st; ai_decision := d |}.

Definition parse_ManualControlUpdate (obj : list (string * Irrigation.json))
    : option ManualControlUpdate :=
  e ← as_bool (field "manual_enabled" obj);
  c ← as_bool (field "pump_command" obj);
  Some {| upd_manual_enabled := e; upd_pump_command := c |}.

(** *** The database *)

(** The two tables these paths touch: [manual_control] by primary key,
    [sensor_data] in insertion order. *)
Record Db := {
  manual_control : gmap Z DBManualControl;
  sensor_data : list DBSensorData
}.

(** The tables [Base.metadata.create_all] leaves in a new database file. *)
Definition fresh_db : Db := {| manual_control := ∅; sensor_data := [] |}.

(** *** CRUD operations (lines 139-164) *)

(** [get_manual_control]; [now] is the database clock behind
    [server_default=func.now()]. *)
Definition get_manual_control (now : Z) (db : Db) : Db * DBManualControl :=
  match manual_control db !! 1 with
  | Some status => (db, status)
  | None =>
      let status := {| id := 1; manual_enabled := false; pump_command := false;
                       timestamp := now |} in
      ({| manual_control := <[1 := status]> (manual_control db);
          sensor_data := sensor_data db |}, status)
  end.

(** [update_manual_control]; the commit stamps the row again
    ([onupdate=func.now()]). *)
Definition update_manual_control (now : Z) (db : Db) (update : ManualControlUpdate)
    : Db * DBManualControl :=
  let '(db1, status) := get_manual_control now db in
  let status' := {| id := id status;
                    manual_enabled := upd_manual_enabled update;
                    pump_command := upd_pump_command update;
                    timestamp := now |} in
  ({| manual_control := <[id status := status']> (manual_control db1);
      sensor_data := sensor_data db1 |}, status').

(** The key SQLite gives a new row: one more than the largest in use. *)
Definition next_id (rows : list DBSensorData) : Z :=
  1 + fold_right (fun r m => Z.max (row_id r) m) 0 rows.

(** [create_sensor_data]. *)
Definition create_sensor_data (now : Z) (db : Db) (data : SensorDataBase)
    : Db * DBSensorData :=
  let db_data := {| row_id := next_id (sensor_data db); row_timestamp := now;
                    row_data := data |} in
  ({| manual_control := manual_control db;
      sensor_data := sensor_data db ++ [db_data] |}, db_data).

(** *** Endpoints (lines 258-282) *)

Inductive request :=
| PutControlManual (body : list (string * Irrigation.json))
| GetControlStatus
| PostDataSensor (body : list (string * Irrigation.json)).

(** An answer: the body the [response_model] renders with its status
    code, or an error status. *)
Inductive response :=
| ManualControlStatus (status_code : Z) (manual_enabled pump_command : bool)
                      (timestamp : Z)
| SensorData (status_code : Z) (row : DBSensorData)
| HTTPError (status_code : Z).

Definition render_status (status : DBManualControl) : response :=
  ManualControlStatus 200 (manual_enabled status) (pump_command status)
                      (timestamp status).

(** [set_manual_control], [get_manual_control_status] and
    [record_sensor_data], each behind the validation of its body. *)
Definition handle (now : Z) (db : Db) (r : request) : Db * response :=
  match r with
  | PutControlManual body =>
      match parse_ManualControlUpdate body with
      | Some update =>
          let '(db', status) := update_manual_control now db update in
          (db', render_status status)
      | None => (db, HTTPError 422)
      end
  | GetControlStatus =>
      let '(db', status) := get_manual_control now db in
      (db', render_status status)
  | PostDataSensor body =>
      match parse_SensorDataCreate body with
      | Some data =>
          let '(db', row) := create_sensor_data now db data in
          (db', SensorData 201 row)
      | None => (db, HTTPError 422)
      end
  end.

(** The database after a sequence of requests, each with the clock reading
    at which it is served. *)
Fixpoint serve (db : Db) (reqs : list (Z * request)) : Db :=
  match reqs with
  | [] => db
  | (now, r) :: rest => serve (fst (handle now db r)) rest
  end.

(** Does the request apply a manual-control update (a PUT whose body
    passes validation)? *)
Definition applies_update (r : Z * request) : bool :=
  match snd r with
  | PutControlManual body =>
      match parse_ManualControlUpdate body with Some _ => true | None => false end
  | _ => false
  end.

End Validation.

(** No row of [manual_control] under key 1 has a flag set. *)
Definition automatic (db : Db) : Prop :=
  forall row, manual_control db !! 1%Z = Some row ->
              manual_enabled row = false /\ pump_command row = false.

End Backend.

(** ** The design document's reading of two components *)

Module Design.

(** The reason tags of a [DecisionRecord] and the text the loop logs for
    each. *)
Inductive Reason := RNone | AI | Emergency | Manual.

Definition tag (r : Reason) : string :=
  match r with
  | RNone => "NO"
  | AI => "AI"
  | Emergency => "EMERGENCY"
  | Manual => "MANUAL"
  end.

(** The Decision Engine as the document words it (section 4.4): steps 1
    to 4 over (probability, threshold, soil_pct, emergency_threshold,
    manual_state). *)
Definition decision_engine (probability threshold soil_pct emergency_threshold : Q)
    (manual_state : bool * bool) : bool * Reason :=
  let ai_trigger := Qle_bool threshold probability in
  let emergency_trigger := Qle_bool soil_pct emergency_threshold in
  if fst manual_state then (snd manual_state, Manual)
  else (ai_trigger || emergency_trigger,
        if ai_trigger then AI else if emergency_trigger then Emergency else RNone).

(** The soil mapping as the document words it (section 4.2), before the
    rounding: clamp into [[wet_ref, dry_ref]], then
    [100 * (dry_ref - clamped) / (dry_ref - wet_ref)]. *)
Definition pct (wet_ref dry_ref raw : Z) : Q :=
  let clamped := Z.max (Z.min raw dry_ref) wet_ref in
  (100 * inject_Z (dry_ref - clamped) / inject_Z (dry_ref - wet_ref))%Q.

(** The time the pump has run over a stretch of iterations that follows
    clock reading [prev], the document's seconds_run_this_hour: between
    two iterations the pump is in the state the earlier one left it in. *)
Fixpoint run_time (prev : Q) (tr : list Irrigation.Step) : Q :=
  match tr with
  | [] => 0
  | st :: rest =>
      (if Irrigation.pump_on (Irrigation.before st)
       then Irrigation.now (Irrigation.input st) - prev else 0)
      + run_time (Irrigation.now (Irrigation.input st)) rest
  end.

(** The manual-control state a poll delivers, when one is made and
    answered with status 200. *)
Definition fetched (st : Irrigation.Step) : option (bool * bool) :=
  if Irrigation.poll_due (Irrigation.now (Irrigation.input st)) (Irrigation.before st)
  then match Irrigation.control_response (Irrigation.input st) with
       | Irrigation.Response status_code e c =>
           if (status_code =? 200)%Z
           then Some (default false e, default false c) else None
       | Irrigation.RequestException => None
       end
  else None.

(** The state the document wants the decision logic to see after a run:
    the last one fetched, and [{false, false}] before any fetch. *)
Fixpoint last_fetched (acc : bool * bool) (tr : list Irrigation.Step) : bool * bool :=
  match tr with
  | [] => acc
  | st :: rest => last_fetched (default acc (fetched st)) rest
  end.

Definition never_fetched (tr : list Irrigation.Step) : bool :=
  forallb (fun st => match fetched st with None => true | Some _ => false end) tr.

(** Is [sub] a substring of [s]? *)
Fixpoint contains (sub s : string) : bool :=
  String.prefix sub s
  || match s with
     | EmptyString => false
     | String _ rest => contains sub rest
     end.

End Design.

(** ** smart_irrigation.py: sensing and relay *)

Module ZOrder <: Orders.TotalLeBool.
Definition t := Z.
Definition leb := Z.leb.
Theorem leb_total (x y : Z) : Z.leb x y = true \/ Z.leb y x = true.
Proof. destruct (Z.leb_spec x y); [now left | right; apply Z.leb_le; lia]. Qed.
End ZOrder.

Module ZSort := Mergesort.Sort ZOrder.

Module Sensing.

Local Open Scope Z_scope.

(** *** Settings (lines 20-23, 145-146) *)

Definition ACTIVE_HIGH : bool := true.
Definition DRY_RUN : bool := false.
Definition SOIL_CH : Z := 0.
Definition MEDIAN_N : nat := 9.
Definition AVG_WINDOW : nat := 12.

(** *** Relay (lines 62-72) *)

(** The level of the relay pin, [true] for [GPIO.HIGH]; [GPIO.setup] sets
    it first. *)
Definition initial_pin : bool := if ACTIVE_HIGH then false else true.

(** [relay_set(on)]: the level of the pin after the call. *)
Definition relay_set (on : bool) (pin : bool) : bool :=
  if DRY_RUN then pin
  else if ACTIVE_HIGH then (if on then true else false)
       else (if on then false else true).

(** The pin after the calls an iteration makes, in order. *)
Definition drive (pin : bool) (calls : list bool) : bool :=
  fold_left (fun p on => relay_set on p) calls pin.

(** The pin along a run of the loop. *)
Fixpoint pin_after (pin : bool) (tr : list Irrigation.Step) : bool :=
  match tr with
  | [] => pin
  | st :: rest => pin_after (drive pin (Irrigation.out_relay (Irrigation.out st))) rest
  end.

(** *** ADC (lines 79-81) *)

(** The frame [read_adc(ch)] sends over SPI. *)
Definition adc_frame (ch : Z) : list Z := [1; Z.shiftl (8 + ch) 4; 0].

(** The value [read_adc] decodes from the bytes [spi.xfer2] answers.
    [None] is the [IndexError] of an answer shorter than three bytes. *)
Definition read_adc (r : list Z) : option Z :=
  match r with
  | _ :: r1 :: r2 :: _ => Some (Z.lor (Z.shiftl (Z.land r1 3) 8) r2)
  | _ => None
  end.

(** *** Air sensor (lines 89-97) *)

(** What reading [dht.temperature] and [dht.humidity] can do: raise, or
    give two values of which either may be [None]. *)
Inductive dht_outcome :=
| DhtException
| DhtValues (t h : option Q).

Definition read_dht_safe (o : dht_outcome) : option Q * option Q :=
  match o with
  | DhtValues (Some t) (Some h) => (Some t, Some h)
  | _ => (None, None)
  end.

(** *** Readings and processing (lines 147, 182-186) *)

(** [int(statistics.median(vals))]: the middle of the sorted samples, for
    an even number of them the mean of the two middle ones, truncated
    toward zero.  [None] is the [StatisticsError] on no samples. *)
Definition median (vals : list Z) : option Z :=
  let data := ZSort.sort vals in
  let n := List.length data in
  match n with
  | O => None
  | _ =>
      if Nat.odd n then Some (nth (Nat.div n 2) data 0)
      else Some (Z.quot (nth (Nat.div n 2 - 1) data 0 + nth (Nat.div n 2) data 0) 2)
  end.

(** [buf.append(x)] on a [deque(maxlen=...)]: the oldest entries give way. *)
Definition append (maxlen : nat) (buf : list Z) (x : Z) : list Z :=
  skipn (List.length (buf ++ [x]) - maxlen) (buf ++ [x]).

(** The buffer after a stream of medians. *)
Definition feed (maxlen : nat) (buf : list Z) (xs : list Z) : list Z :=
  fold_left (append maxlen) xs buf.

Definition sum (l : list Z) : Z := fold_right Z.add 0 l.

(** [sum(buf)//len(buf)]; [None] is the [ZeroDivisionError] on an empty
    buffer. *)
Definition smooth (buf : list Z) : option Z :=
  match buf with
  | [] => None
  | _ => Some (sum buf / Z.of_nat (List.length buf))
  end.

(** Section 1 of the loop body for the soil: the samples of this pass,
    their median, the buffer with it, the smoothed reading and the
    percentage.  [None]: one of the errors above. *)
Definition read_soil (buf : list Z) (vals : list Z) : option (list Z * Z * Q) :=
  med ← median vals;
  let buf' := append AVG_WINDOW buf med in
  adc_smooth ← smooth buf';
  soil_pct ← Irrigation.adc_to_pct adc_smooth Irrigation.WET Irrigation.DRY;
  Some (buf', adc_smooth, soil_pct).

End Sensing.

(** ** Observations on a run of the loop *)

Module Schedule.

(** Did the iteration push a report?  Did it poll the server? *)
Definition reported (st : Irrigation.Step) : bool :=
  match Irrigation.out_report (Irrigation.out st) with
  | Some _ => true
  | None => false
  end.

Definition polled (st : Irrigation.Step) : bool :=
  Irrigation.poll_due (Irrigation.now (Irrigation.input st)) (Irrigation.before st).

End Schedule.

(** ** The controller's poll against the server *)

Module Link.

(** The answer of [GET /control/status/] as [requests.get] hands it to the
    controller: the status code, and the two flags of a rendered
    [ManualControlStatus] body. *)
Definition poll_answer (r : Backend.response) : Irrigation.poll_result :=
  match r with
  | Backend.ManualControlStatus code e c _ => Irrigation.Response code (Some e) (Some c)
  | Backend.SensorData code _ => Irrigation.Response code None None
  | Backend.HTTPError code => Irrigation.Response code None None
  end.

Section Server.

Context {lax : Backend.Lax}.

(** One poll by the controller at server time [clock]: the database after
    it, and the state the controller reads. *)
Definition poll (clock : Z) (db : Backend.Db) : Backend.Db * (bool * bool) :=
  let '(db', r) := Backend.handle clock db Backend.GetControlStatus in
  (db', Irrigation.get_manual_control_status (poll_answer r)).

(** The flags of the last manual-control update a sequence of requests
    applies, [None] when it applies none. *)
Fixpoint last_update (acc : option (bool * bool)) (reqs : list (Z * Backend.request))
    : option (bool * bool) :=
  match reqs with
  | [] => acc
  | (_, Backend.PutControlManual body) :: rest =>
      match Backend.parse_ManualControlUpdate body with
      | Some u => last_update (Some (Backend.upd_manual_enabled u,
                                     Backend.upd_pump_command u)) rest
      | None => last_update acc rest
      end
  | _ :: rest => last_update acc rest
  end.

(** The row the queries of [get_manual_control] find carries the key they
    filter on ([DBManualControl.id == 1]). *)
Definition keyed (db : Backend.Db) : Prop :=
  forall row, Backend.manual_control db !! 1%Z = Some row -> Backend.id row = 1%Z.

(** The flags a database holds: those of the row of key 1, the defaults of
    [get_manual_control] while there is none. *)
Definition flags (db : Backend.Db) : bool * bool :=
  match Backend.manual_control db !! 1%Z with
  | Some row => (Backend.manual_enabled row, Backend.pump_command row)
  | None => (false, false)
  end.

(** Does the request store a reading (a POST whose body passes
    validation)? *)
Definition stores_reading (r : Z * Backend.request) : bool :=
  match snd r with
  | Backend.PostDataSensor body =>
      match Backend.parse_SensorDataCreate body with Some _ => true | None => false end
  | _ => false
  end.

End Server.

End Link.

(** ** pest_detection.py, with the pest-report path of app.py *)

Module Pest.

Local Open Scope string_scope.

(** *** Settings (lines 13-22) *)

(** The literal 0.85 as a rational; the binary64 constant the comparison
    uses lies less than 1e-16 below it. *)
Definition CONF_TH : Q := 85 # 100.
Definition PLANT_NAME : string := "Tomato".

(** *** Recommendations (lines 30-48) *)

Record advice := {
  pest_name : string;
  recommendation : string
}.

Definition PEST_RECOMMENDATIONS : gmap string advice :=
  list_to_map
    [ ("Tomato___Bacterial_spot",
       {| pest_name := "Bacterial Spot";
          recommendation := "Use copper-based biopesticides, avoid overhead irrigation, and remove infected leaves to limit spread." |});
      ("Tomato___Late_blight",
       {| pest_name := "Late Blight";
          recommendation := "Immediately spray systemic fungicides, ensure good plant ventilation, and monitor humidity levels." |});
      ("Tomato___White_rot",
       {| pest_name := "White Rot";
          recommendation := "Completely remove infected plants. Use soil fungicides, and ensure pruning tools are sterilized." |});
      ("Tomato___healthy",
       {| pest_name := "Healthy";
          recommendation := "The plant is healthy. Continue monitoring and irrigation as needed." |}) ].

(** *** Report sending (lines 77-100) *)

(** What a call of [send_pest_report] does: it raises [KeyError] (the
    default of the lookup is missing), returns without sending, or posts a
    body. *)
Inductive sent :=
| KeyError
| NotSent
| Posted (report_data : list (string * Irrigation.json)).

Definition send_pest_report (pred_key : string) (confidence : Q) : sent :=
  match PEST_RECOMMENDATIONS !! "Tomato___healthy" with
  | None => KeyError
  | Some healthy =>
      let report_config := default healthy (PEST_RECOMMENDATIONS !! pred_key) in
      if String.eqb pred_key "Tomato___healthy" then NotSent
      else Posted
             [ ("pest_name", Irrigation.JStr (pest_name report_config));
               ("plant_name", Irrigation.JStr PLANT_NAME);
               ("detection_certainty", Irrigation.JNum confidence);
               ("recommendation", Irrigation.JStr (recommendation report_config)) ]
  end.

(** *** The camera loop (lines 119-129) *)

(** [str.lower] on the bytes of the label: the ASCII capitals become
    small, every other byte stays.  (On labels with letters outside ASCII
    Python changes more; none of those changes makes or removes one of the
    letters of "healthy".) *)
Definition lower_ascii (a : ascii) : ascii :=
  let n := nat_of_ascii a in
  if (Nat.leb 65 n && Nat.leb n 90)%bool then ascii_of_nat (n + 32) else a.

Fixpoint lower (s : string) : string :=
  match s with
  | EmptyString => EmptyString
  | String a rest => String (lower_ascii a) (lower rest)
  end.

(** One pass of the loop on a prediction [pred] with confidence [conf]:
    what is sent, if [send_pest_report] is called at all. *)
Definition process_frame (pred : string) (conf : Q) : option sent :=
  if Qle_bool CONF_TH conf
  then if negb (Design.contains "healthy" (lower pred))
       then Some (send_pest_report pred conf)
       else None
  else None.

(** *** The server side (app.py, lines 53-61, 96-109, 170-176, 284-291) *)

Record PestReportBase := {
  rep_pest_name : string;
  rep_plant_name : string;
  rep_detection_certainty : Q;
  rep_recommendation : string
}.

(** A row of [pest_reports]. *)
Record DBPestReport := {
  rep_id : Z;
  rep_timestamp : Z;
  rep_data : PestReportBase
}.

Section Server.

Context {lax : Backend.Lax}.

(** Parsing a request body as [PestReportCreate]; [None] is the 422
    answer (validation as in [Backend.as_float]). *)
Definition parse_PestReportCreate (obj : list (string * Irrigation.json))
    : option PestReportBase :=
  p ← Backend.as_str (Backend.field "pest_name" obj);
  l ← Backend.as_str (Backend.field "plant_name" obj);
  c ← Backend.as_float (Backend.field "detection_certainty" obj);
  r ← Backend.as_str (Backend.field "recommendation" obj);
  Some {| rep_pest_name := p; rep_plant_name := l;
          rep_detection_certainty := c; rep_recommendation := r |}.

(** [create_pest_report], on the table it touches; the new key is one more
    than the largest in use. *)
Definition create_pest_report (clock : Z) (rows : list DBPestReport)
    (report : PestReportBase) : list DBPestReport * DBPestReport :=
  let db_report :=
    {| rep_id := (1 + fold_right (fun r m => Z.max (rep_id r) m) 0 rows)%Z;
       rep_timestamp := clock; rep_data := report |} in
  ((rows ++ [db_report])%list, db_report).

(** [record_pest_report]: the table after the request and the status code
    answered. *)
Definition record_pest_report (clock : Z) (rows : list DBPestReport)
    (body : list (string * Irrigation.json)) : list DBPestReport * Z :=
  match parse_PestReportCreate body with
  | Some report => (fst (create_pest_report clock rows report), 201%Z)
  | None => (rows, 422%Z)
  end.

End Server.

End Pest.

(** ** A reading of strings for the examples *)

Module Reading.

Local Open Scope string_scope.

(** The number a string of decimal digits writes. *)
Fixpoint digits (acc : Z) (s : string) : option Z :=
  match s with
  | EmptyString => Some acc
  | String a rest =>
      let n := nat_of_ascii a in
      if (Nat.leb 48 n && Nat.leb n 57)%bool
      then digits (10 * acc + Z.of_nat (n - 48))%Z rest
      else None
  end.

(** One reading of strings among those the properties are proved for: as
    a bool, the twelve words Pydantic documents, in any mix of ASCII
    capitals; as a float, a non-empty string of decimal digits.  Only the
    examples use it. *)
Definition example : Backend.Lax :=
  {| Backend.str_as_bool := fun s =>
       let w := Pest.lower s in
       if existsb (String.eqb w) ["0"; "off"; "f"; "false"; "n"; "no"]
       then Some false
       else if existsb (String.eqb w) ["1"; "on"; "t"; "true"; "y"; "yes"]
            then Some true else None;
     Backend.str_as_float := fun s =>
       match s with
       | EmptyString => None
       | _ => option_map inject_Z (digits 0 s)
       end |}.

End Reading.

(** ** Counting samples *)

Module Samples.

(** How many of the samples lie in [[lo, hi]]. *)
Definition within (lo hi x : Z) : bool := (lo <=? x)%Z && (x <=? hi)%Z.

Fixpoint count_within (lo hi : Z) (vals : list Z) : nat :=
  match vals with
  | [] => O
  | x :: rest => (if within lo hi x then 1 else 0) + count_within lo hi rest
  end.

End Samples.

(* ===================================================================== *)
(** * Part II: properties                                                 *)
(* ===================================================================== *)

Import Irrigation.
Local Open Scope Q_scope.

(** ** Comparisons *)

Lemma Qlt_bool_iff (x y : Q) : Qlt_bool x y = true <-> x < y.
Proof.
  unfold Qlt_bool. rewrite negb_true_iff.
  split; intros H.
  - apply Qnot_le_lt. intros L. apply Qle_bool_iff in L. congruence.
  - destruct (Qle_bool y x) eqn:E; [| reflexivity].
    apply Qle_bool_iff in E. exfalso. apply (Qlt_not_le _ _ H E).
Qed.

Lemma Qle_bool_false (x y : Q) : Qle_bool x y = false <-> y < x.
Proof.
  rewrite <- Qlt_bool_iff. unfold Qlt_bool.
  destruct (Qle_bool x y); simpl; intuition congruence.
Qed.

(** Turns the boolean tests of the loop found among the hypotheses and in
    the goal into order facts. *)
Ltac orders :=
  repeat match goal with
  | H : _ && _ = true |- _ => apply andb_prop in H; destruct H
  | H : negb _ = true |- _ => apply negb_true_iff in H
  | H : negb _ = false |- _ => apply negb_false_iff in H
  | H : Qle_bool _ _ = true |- _ => apply Qle_bool_iff in H
  | H : Qle_bool _ _ = false |- _ => apply Qle_bool_false in H
  | H : Qlt_bool _ _ = true |- _ => apply Qlt_bool_iff in H
  end.

(** ** Soil percentage *)

Section Rounding.

Lemma floor_bounds (q : Q) : inject_Z (Qfloor q) <= q < inject_Z (Qfloor q) + 1.
Proof.
  split; [apply Qfloor_le |].
  generalize (Qlt_floor q). rewrite inject_Z_plus. trivial.
Qed.

Lemma round_half_even_mono (p q : Q) :
  p <= q -> (round_half_even p <= round_half_even q)%Z.
Proof.
  intros Hpq. unfold round_half_even.
  pose proof (Qfloor_resp_le _ _ Hpq) as Hf.
  pose proof (floor_bounds p) as [Hp1 Hp2].
  pose proof (floor_bounds q) as [Hq1 Hq2].
  destruct (Z.eq_dec (Qfloor p) (Qfloor q)) as [E | NE].
  - (* same integer part: compare the fractional parts *)
    rewrite E in *.
    destruct (Qcompare_spec (p - inject_Z (Qfloor q)) (1 # 2)) as [Cp | Cp | Cp];
      destruct (Qcompare_spec (q - inject_Z (Qfloor q)) (1 # 2)) as [Cq | Cq | Cq];
      try (destruct (Z.even (Qfloor q))); try lia; exfalso; lra.
  - (* the integer part grows: the results are at most one step apart *)
    assert (Qfloor p + 1 <= Qfloor q)%Z by lia.
    destruct (Qcompare (p - inject_Z (Qfloor p)) (1 # 2));
      destruct (Qcompare (q - inject_Z (Qfloor q)) (1 # 2));
      try (destruct (Z.even (Qfloor p))); try (destruct (Z.even (Qfloor q))); lia.
Qed.

Lemma round1_mono (p q : Q) : p <= q -> round1 p <= round1 q.
Proof.
  intros H. unfold round1. rewrite !Qred_correct.
  assert (p * 10 <= q * 10) as H10 by lra.
  apply round_half_even_mono in H10. rewrite Zle_Qle in H10.
  unfold Qdiv. apply Qmult_le_compat_r; [exact H10 | discriminate].
Qed.

End Rounding.

Section Calibration.

Variables wet dry : Z.
Hypothesis calibrated : (wet < dry)%Z.

(** The quotient that is rounded is antitone and stays in [0, 100] on a
    calibrated range. *)
Lemma adc_to_pct_value (v : Z) : adc_to_pct v wet dry = Some (round1 (Design.pct wet dry v)).
Proof.
  unfold adc_to_pct, Design.pct.
  destruct (Z.eqb_spec (dry - wet) 0) as [E | _]; [lia | reflexivity].
Qed.

Lemma span_pos : 0 < inject_Z (dry - wet).
Proof. change 0 with (inject_Z 0). rewrite <- Zlt_Qlt. lia. Qed.

Lemma raw_pct_antitone (v w : Z) : (v <= w)%Z -> Design.pct wet dry w <= Design.pct wet dry v.
Proof.
  intros H. unfold Design.pct, Qdiv.
  apply Qmult_le_compat_r.
  - apply Qmult_le_l; [lra |]. rewrite <- Zle_Qle. lia.
  - apply Qlt_le_weak, Qinv_lt_0_compat, span_pos.
Qed.

Lemma raw_pct_range (v : Z) : 0 <= Design.pct wet dry v <= 100.
Proof.
  pose proof span_pos as Hs. unfold Design.pct. split.
  - apply Qle_shift_div_l; [exact Hs |].
    assert (0 <= inject_Z (dry - Z.max (Z.min v dry) wet)) as H
      by (change 0 with (inject_Z 0); rewrite <- Zle_Qle; lia).
    lra.
  - apply Qle_shift_div_r; [exact Hs |].
    assert (inject_Z (dry - Z.max (Z.min v dry) wet) <= inject_Z (dry - wet)) as H
      by (rewrite <- Zle_Qle; lia).
    lra.
Qed.

Lemma round1_0 : round1 0 = 0.
Proof. reflexivity. Qed.

Lemma round1_100 : round1 100 = 100.
Proof. reflexivity. Qed.

Lemma rounded_pct_range (v : Z) : 0 <= round1 (Design.pct wet dry v) <= 100.
Proof.
  destruct (raw_pct_range v) as [L U]. split.
  - rewrite <- round1_0. now apply round1_mono.
  - rewrite <- round1_100. now apply round1_mono.
Qed.

End Calibration.

(** On the calibration of the source the binary64 computation and the
    rational one give the same decimal for every reading. *)
Lemma clamp_idem (v wet dry : Z) :
  (wet <= dry)%Z ->
  Z.max (Z.min (Z.max (Z.min v dry) wet) dry) wet = Z.max (Z.min v dry) wet.
Proof. lia. Qed.

Lemma b64_agrees_on_range :
  forallb (fun n =>
             match adc_to_pct_b64 (WET + Z.of_nat n) WET DRY,
                   adc_to_pct (WET + Z.of_nat n) WET DRY with
             | Some a, Some b => (Qnum a =? Qnum b)%Z && (Qden a =? Qden b)%positive
             | _, _ => false
             end) (seq 0 387) = true.
Proof. vm_compute. reflexivity. Qed.

Lemma adc_to_pct_b64_agrees (v : Z) : adc_to_pct_b64 v WET DRY = adc_to_pct v WET DRY.
Proof.
  set (c := Z.max (Z.min v DRY) WET).
  assert (adc_to_pct_b64 v WET DRY = adc_to_pct_b64 c WET DRY) as ->.
  { unfold adc_to_pct_b64, c. rewrite clamp_idem by (unfold WET, DRY; lia). reflexivity. }
  assert (adc_to_pct v WET DRY = adc_to_pct c WET DRY) as ->.
  { unfold adc_to_pct, c. rewrite clamp_idem by (unfold WET, DRY; lia). reflexivity. }
  assert (exists n, (n < 387)%nat /\ c = (WET + Z.of_nat n)%Z) as (n & Hn & ->).
  { exists (Z.to_nat (c - WET)). unfold c, WET, DRY. split; lia. }
  pose proof b64_agrees_on_range as Hall.
  rewrite forallb_forall in Hall.
  specialize (Hall n (proj2 (in_seq 387 0 n) ltac:(lia))). cbv beta in Hall.
  destruct (adc_to_pct_b64 (WET + Z.of_nat n) WET DRY) as [[a1 a2] |];
    destruct (adc_to_pct (WET + Z.of_nat n) WET DRY) as [[b1 b2] |];
    try discriminate Hall.
  simpl in Hall. apply andb_prop in Hall as [Hn' Hd].
  apply Z.eqb_eq in Hn'. apply Pos.eqb_eq in Hd. congruence.
Qed.

(** C6. For every raw ADC reading, with the calibration WET = 233 and
    DRY = 619, [adc_to_pct] clamps the reading into [233, 619] and returns
    100 * (dry - clamped) / (dry - wet) rounded to one decimal; the result
    lies in [0, 100], is non-increasing in the reading, is the one the
    binary64 computation gives, and is 100 at 233 and below, 0 at 619 and
    above, and 50 at 426. *)
Theorem adc_to_pct_calibrated (v w : Z) (Hvw : (v <= w)%Z) :
  exists p q : Q,
    adc_to_pct v WET DRY = Some p /\ adc_to_pct w WET DRY = Some q
    /\ p = round1 (100 * inject_Z (DRY - Z.max (Z.min v DRY) WET) / inject_Z (DRY - WET))
    /\ 0 <= p <= 100
    /\ q <= p
    /\ adc_to_pct_b64 v WET DRY = Some p
    /\ ((v <= WET)%Z -> p = 100)
    /\ ((DRY <= v)%Z -> p = 0)
    /\ adc_to_pct 233 WET DRY = Some 100
    /\ adc_to_pct 619 WET DRY = Some 0
    /\ adc_to_pct 426 WET DRY = Some 50.
Proof.
  assert (WET < DRY)%Z as Hcal by (unfold WET, DRY; lia).
  exists (round1 (Design.pct WET DRY v)), (round1 (Design.pct WET DRY w)).
  split_and!.
  - now apply adc_to_pct_value.
  - now apply adc_to_pct_value.
  - reflexivity.
  - now apply rounded_pct_range.
  - now apply rounded_pct_range.
  - apply round1_mono. now apply raw_pct_antitone.
  - rewrite adc_to_pct_b64_agrees. now apply adc_to_pct_value.
  - intros Hlow. unfold Design.pct.
    replace (Z.max (Z.min v DRY) WET) with WET by lia. reflexivity.
  - intros Hhigh. unfold Design.pct.
    replace (Z.max (Z.min v DRY) WET) with DRY by lia. reflexivity.
  - reflexivity.
  - reflexivity.
  - reflexivity.
Qed.

Lemma adc_to_pct_calibrated_witness :
  (300 <= 400)%Z
  /\ exists p q : Q,
       adc_to_pct 300 WET DRY = Some p /\ adc_to_pct 400 WET DRY = Some q /\ q <= p.
Proof.
  split; [lia |].
  destruct (adc_to_pct_calibrated 300 400 ltac:(lia)) as (p & q & Hp & Hq & _ & _ & Hle & _).
  exists p, q. auto.
Defined.

(** ** One iteration *)

Lemma update_hour_window_pump (t : Q) (s : State) :
  pump_state (update_hour_window t s) = pump_state s
  /\ last_control_check (update_hour_window t s) = last_control_check s
  /\ last_report_time (update_hour_window t s) = last_report_time s.
Proof. unfold update_hour_window. destruct (Qle_bool _ _); auto. Qed.

Lemma poll_due_update_hour_window (t : Q) (s : State) :
  poll_due t (update_hour_window t s) = poll_due t s.
Proof.
  unfold poll_due. now destruct (update_hour_window_pump t s) as (_ & -> & _).
Qed.

(** A pump just switched on cannot be switched off in the same iteration:
    no time has passed since the change. *)
Lemma no_off_right_after_on (t : Q) (e c : bool) (s : State) :
  turns_off t e c (switch_on t s) = false.
Proof.
  unfold turns_off. simpl.
  assert (Qle_bool MIN_ON_SEC (t - t) = false) as ->
    by (apply Qle_bool_false; unfold MIN_ON_SEC; lra).
  apply andb_false_r.
Qed.

(** A pump that is off has nothing to switch off. *)
Lemma no_off_when_off (t : Q) (e c : bool) (s : State) :
  pump_on s = false -> turns_off t e c s = false.
Proof.
  intros Hoff. unfold turns_off, is_safety_cut_off, is_pulse_end, is_manual_off.
  rewrite Hoff. now rewrite andb_false_r.
Qed.

Lemma no_on_when_on (t : Q) (d : bool) (s : State) :
  pump_on s = true -> turns_on t d s = false.
Proof. intros Hon. unfold turns_on. now rewrite Hon. Qed.

Section Iteration.

Variable cfg : Config.
Variable s : State.
Variable i : Input.

Let s1 := update_hour_window (now i) s.
Let m := manual_override_check (now i) (control_response i) s1.
Let d := decision (score cfg (model_proba i)) (THRESH cfg) (soil i)
                  EMERGENCY_ON_PCT (fst m) (snd m).

(** What the iteration logs is the decision on the manual state it polled
    and the score. *)
Lemma tick_out :
  out_manual (snd (tick cfg s i)) = m
  /\ out_proba (snd (tick cfg s i)) = score cfg (model_proba i)
  /\ out_decision (snd (tick cfg s i)) = fst d
  /\ out_reason (snd (tick cfg s i)) = snd d.
Proof.
  unfold tick. fold s1. fold m. unfold d.
  destruct m as [e c]. simpl fst. simpl snd.
  destruct (decision _ _ _ _ e c) as [fd r]. simpl. auto.
Qed.

(** The actuator state after the iteration, by cases on the pump and on
    the two switch tests. *)
Lemma tick_pump_state :
  pump_state (fst (tick cfg s i)) =
    if pump_on s
    then if turns_off (now i) (fst m) (snd m) s1
         then (false, now i, on_start s, now i + REST_SEC)
         else pump_state s
    else if turns_on (now i) (fst d) s1
         then (true, now i, now i, rest_until s)
         else pump_state s.
Proof.
  pose proof (update_hour_window_pump (now i) s) as (Hp & _).
  fold s1 in Hp. unfold pump_state in Hp. injection Hp as Hp1 Hp2 Hp3 Hp4.
  unfold tick. fold s1. fold m. unfold d.
  destruct m as [e c]. simpl fst. simpl snd.
  destruct (decision _ _ _ _ e c) as [fd r]. simpl fst.
  destruct (pump_on s) eqn:Hon.
  - rewrite (no_on_when_on _ _ _ Hp1).
    destruct (turns_off (now i) e c s1); unfold pump_state; simpl; congruence.
  - destruct (turns_on (now i) fd s1).
    + rewrite no_off_right_after_on. unfold pump_state; simpl; congruence.
    + rewrite (no_off_when_off _ _ _ _ Hp1). unfold pump_state; simpl; congruence.
Qed.

(** The cause logged on a switch-off. *)
Lemma tick_out_off :
  out_off (snd (tick cfg s i)) =
    if pump_on s && turns_off (now i) (fst m) (snd m) s1
    then Some (cause (now i) (fst m) (snd m) s1)
    else None.
Proof.
  pose proof (update_hour_window_pump (now i) s) as (Hp & _).
  fold s1 in Hp. unfold pump_state in Hp. injection Hp as Hp1 Hp2 Hp3 Hp4.
  unfold tick. fold s1. fold m.
  destruct m as [e c]. simpl fst. simpl snd.
  destruct (decision _ _ _ _ e c) as [fd r]. simpl.
  destruct (pump_on s) eqn:Hon; simpl.
  - now rewrite (no_on_when_on _ _ _ Hp1).
  - destruct (turns_on (now i) fd s1).
    + now rewrite no_off_right_after_on.
    + now rewrite (no_off_when_off _ _ _ _ Hp1).
Qed.

End Iteration.

(** ** Runs *)

Lemma run_cons_inv (cfg : Config) (s : State) (ins : list Input) (st : Step) (l : list Step) :
  run cfg s ins = st :: l ->
  exists i rest, ins = i :: rest /\ st = step cfg s i /\ l = run cfg (after st) rest.
Proof.
  destruct ins as [| i rest]; simpl; intros H; [discriminate |].
  injection H as <- <-. exists i, rest. auto.
Qed.

Lemma run_suffix (cfg : Config) (pre : list Step) :
  forall (s : State) (ins : list Input) (l : list Step),
    run cfg s ins = pre ++ l -> exists s' ins', l = run cfg s' ins'.
Proof.
  induction pre as [| st pre IH]; simpl; intros s ins l H.
  - exists s, ins. auto.
  - apply run_cons_inv in H as (i & rest & _ & _ & Hl).
    symmetry in Hl. now apply IH in Hl.
Qed.

(** Every step of a run is an iteration of the loop from its [before]
    state. *)
Lemma run_step (cfg : Config) (s : State) (ins : list Input)
    (pre : list Step) (k : Step) (post : list Step) :
  run cfg s ins = pre ++ k :: post ->
  exists i rest, k = step cfg (before k) i /\ post = run cfg (after k) rest.
Proof.
  intros H. apply run_suffix in H as (s' & ins' & H). symmetry in H.
  apply run_cons_inv in H as (i & rest & _ & Hk & Hpost).
  exists i, rest. split; [| exact Hpost]. subst k. reflexivity.
Qed.

(** A property of the state kept by every iteration that does not switch
    the pump off holds before the step that ends such a stretch. *)
Lemma through_stretch (cfg : Config) (P : State -> Prop) :
  (forall s i, P s -> turned_off (step cfg s i) = false -> P (after (step cfg s i))) ->
  forall (mid : list Step) (s : State) (ins : list Input) (k : Step) (post : list Step),
    P s ->
    run cfg s ins = mid ++ k :: post ->
    forallb (fun st => negb (turned_off st)) mid = true ->
    P (before k).
Proof.
  intros Hkeep. induction mid as [| st mid IH]; simpl; intros s ins k post HP Hrun Hmid.
  - apply run_cons_inv in Hrun as (i & rest & _ & -> & _). exact HP.
  - apply run_cons_inv in Hrun as (i & rest & _ & -> & Hrest).
    apply andb_prop in Hmid as [Hst Hmid]. apply negb_true_iff in Hst.
    symmetry in Hrest. eapply IH; [| exact Hrest | exact Hmid].
    now apply Hkeep.
Qed.

(** The actuator state as four equations. *)
Lemma pump_state_eq (s : State) (b : bool) (c o r : Q) :
  pump_state s = (b, c, o, r) ->
  pump_on s = b /\ last_change s = c /\ on_start s = o /\ rest_until s = r.
Proof. unfold pump_state. intros H. injection H. auto. Qed.

Lemma pump_state_same (s s' : State) :
  pump_state s' = pump_state s ->
  pump_on s' = pump_on s /\ last_change s' = last_change s
  /\ on_start s' = on_start s /\ rest_until s' = rest_until s.
Proof. unfold pump_state. intros H. injection H. auto. Qed.

Lemma step_moves (cfg : Config) (s : State) (i : Input) : pump_move cfg s i.
Proof.
  pose proof (tick_pump_state cfg s i) as H.
  pose proof (tick_out cfg s i) as (Hm & _ & Hd & _).
  cbv zeta in H, Hm, Hd.
  destruct (pump_on s) eqn:Hon.
  - destruct (turns_off _ _ _ _) eqn:Hoff in H.
    + apply SwitchesOff; simpl; [exact Hon | now rewrite Hm | exact H].
    + now apply Stays.
  - destruct (turns_on _ _ _) eqn:Hturn in H.
    + apply SwitchesOn; simpl; [exact Hon | now rewrite Hd | exact H].
    + now apply Stays.
Qed.

(** While no iteration switches it off, a pump that is on stays as it was
    switched on. *)
Lemma kept_on (cfg : Config) (t : Q) (s : State) (i : Input) :
  pump_on s = true /\ last_change s = t /\ on_start s = t ->
  turned_off (step cfg s i) = false ->
  pump_on (after (step cfg s i)) = true
  /\ last_change (after (step cfg s i)) = t
  /\ on_start (after (step cfg s i)) = t.
Proof.
  intros (Hon & Hc & Ho) Hno. unfold turned_off in Hno. simpl before in Hno.
  rewrite Hon, andb_true_l in Hno. apply negb_false_iff in Hno.
  destruct (step_moves cfg s i) as [Hsame | Hoff _ _ | _ _ Hst].
  - apply pump_state_same in Hsame as (-> & -> & -> & _). auto.
  - congruence.
  - apply pump_state_eq in Hst as (Hst & _). congruence.
Qed.

(** After a switch-off at [t], and until the next one, the pump is either
    on again or still carries the marks of that switch-off. *)
Lemma kept_off_marks (cfg : Config) (t : Q) (s : State) (i : Input) :
  pump_on s = true \/ (last_change s = t /\ rest_until s = t + REST_SEC) ->
  turned_off (step cfg s i) = false ->
  pump_on (after (step cfg s i)) = true
  \/ (last_change (after (step cfg s i)) = t
      /\ rest_until (after (step cfg s i)) = t + REST_SEC).
Proof.
  intros HP Hno. unfold turned_off in Hno. simpl before in Hno.
  destruct (step_moves cfg s i) as [Hsame | _ _ Hst | Hon _ Hst].
  - apply pump_state_same in Hsame as (Hp & -> & _ & ->).
    destruct HP as [Hon | Hmarks]; [left; congruence | now right].
  - apply pump_state_eq in Hst as (Hst & _). now left.
  - apply pump_state_eq in Hst as (Hst & _).
    rewrite Hon, Hst in Hno. discriminate.
Qed.

(** ** Actuator timing *)

(** What the switch-on test demands of the state before the iteration. *)
Lemma turns_on_guards (t : Q) (d : bool) (s : State) :
  turns_on t d (update_hour_window t s) = true ->
  d = true
  /\ rest_until s <= t
  /\ MIN_OFF_SEC <= t - last_change s
  /\ inject_Z (run_sec_this_hour (update_hour_window t s)) / 60 < MAX_MIN_PER_HOUR.
Proof.
  intros H. unfold turns_on in H.
  destruct (update_hour_window_pump t s) as (Hp & _).
  apply pump_state_same in Hp as (_ & Hc & _ & Hr). rewrite Hc, Hr in H.
  orders. unfold Qlt_bool in *. orders. repeat split; trivial.
Qed.

(** The guards of a switch-on.  In every run of the loop, an iteration
    that switches the pump on finds the decision true, no rest period
    pending, MIN_OFF_SEC elapsed since the last change and the counter of
    the hour, taken as seconds, below MAX_MIN_PER_HOUR minutes; and when
    the pump was switched off before, at least MIN_OFF_SEC lie between the
    latest switch-off and this switch-on, the rest period being the one
    that switch-off started.  The counter counts iterations, not run time
    (see [switch_on_cap_counts_iterations]). *)
Theorem switch_on_guards (cfg : Config) (s0 : State) (ins : list Input)
    (pre : list Step) (k : Step) (post : list Step) :
  run cfg s0 ins = pre ++ k :: post ->
  turned_on k = true ->
  out_decision (out k) = true
  /\ rest_until (before k) <= now (input k)
  /\ MIN_OFF_SEC <= now (input k) - last_change (before k)
  /\ inject_Z (run_sec_this_hour (update_hour_window (now (input k)) (before k))) / 60
     < MAX_MIN_PER_HOUR
  /\ forall (pre' : list Step) (j : Step) (mid : list Step),
       pre = pre' ++ j :: mid ->
       turned_off j = true ->
       forallb (fun st => negb (turned_off st)) mid = true ->
       MIN_OFF_SEC <= now (input k) - now (input j)
       /\ rest_until (before k) = now (input j) + REST_SEC.
Proof.
  intros Hrun Hk.
  destruct (run_step _ _ _ _ _ _ Hrun) as (i & rest & Hstep & _).
  unfold turned_on in Hk. apply andb_prop in Hk as [Hwas Hnow].
  apply negb_true_iff in Hwas.
  assert (out_decision (out k) = true
          /\ rest_until (before k) <= now (input k)
          /\ MIN_OFF_SEC <= now (input k) - last_change (before k)
          /\ inject_Z (run_sec_this_hour
                         (update_hour_window (now (input k)) (before k))) / 60
             < MAX_MIN_PER_HOUR) as Hguards.
  { rewrite Hstep in Hnow |- *. simpl input. simpl before. 
    destruct (step_moves cfg (before k) i) as [Hsame | _ Hon _ | Hon _ _].
    - apply pump_state_same in Hsame as (Hp & _). congruence.
    - now apply turns_on_guards in Hon.
    - congruence. }
  destruct Hguards as (Hd & Hrest & Hmin & Hcap).
  repeat (split; [assumption |]).
  intros pre' j mid -> Hj Hmid.
  rewrite <- app_assoc in Hrun. simpl in Hrun.
  apply run_suffix in Hrun as (s' & ins' & Hrun). symmetry in Hrun.
  apply run_cons_inv in Hrun as (ij & restj & _ & Hjstep & Hrun).
  unfold turned_off in Hj. apply andb_prop in Hj as [Hjwas Hjnow].
  apply negb_true_iff in Hjnow.
  assert (last_change (after j) = now (input j)
          /\ rest_until (after j) = now (input j) + REST_SEC) as Hmarks.
  { rewrite Hjstep in Hjwas, Hjnow |- *. simpl input. simpl before in Hjwas.
    destruct (step_moves cfg s' ij) as [Hsame | Hoff _ _ | _ _ Hst].
    - apply pump_state_same in Hsame as (Hp & _). congruence.
    - congruence.
    - apply pump_state_eq in Hst as (_ & Hc & _ & Hr). auto. }
  symmetry in Hrun.
  pose proof (through_stretch cfg
                (fun s => pump_on s = true
                          \/ (last_change s = now (input j)
                              /\ rest_until s = now (input j) + REST_SEC))
                (kept_off_marks cfg (now (input j)))
                mid (after j) restj k post (or_intror Hmarks) Hrun Hmid)
    as [Hon | (Hc & Hr)].
  - congruence.
  - split; [rewrite <- Hc; exact Hmin | exact Hr].
Qed.

Lemma switch_on_guards_witness :
  let tr := run loaded boot dry_offline in
  let idle := step loaded boot (reading 0 0 RequestException 0) in
  turned_off (nth 5 tr idle) = true
  /\ turned_on (nth 9 tr idle) = true
  /\ MIN_OFF_SEC <= 16 - (48 # 5)
  /\ (48 # 5) + REST_SEC <= 16.
Proof.
  intros tr idle.
  destruct (switch_on_guards loaded boot dry_offline
              (firstn 9 tr) (nth 9 tr idle) (skipn 10 tr) eq_refl eq_refl)
    as (_ & Hrest & _ & _ & Hprior).
  destruct (Hprior (firstn 5 tr) (nth 5 tr idle) (firstn 3 (skipn 6 tr))
              eq_refl eq_refl eq_refl) as (Hgap & Hmark).
  split; [reflexivity |]. split; [reflexivity |].
  split; [exact Hgap |].
  rewrite Hmark in Hrest. exact Hrest.
Defined.

(** The switch-off test reads only what the hourly window leaves alone. *)
Lemma turns_off_window (t : Q) (e c : bool) (s : State) :
  turns_off t e c (update_hour_window t s) = turns_off t e c s
  /\ cause t e c (update_hour_window t s) = cause t e c s.
Proof.
  destruct (update_hour_window_pump t s) as (Hp & _).
  apply pump_state_same in Hp as (Hon & Hc & Ho & _).
  unfold turns_off, cause, is_safety_cut_off, is_pulse_end, is_manual_off.
  now rewrite Hon, Hc, Ho.
Qed.

(** From a switch-on at [j] to a later step [k] with no switch-off in
    between, the pump is on and both of its clocks read the time of [j]. *)
Lemma on_since (cfg : Config) (s0 : State) (ins : list Input)
    (pre : list Step) (j : Step) (mid : list Step) (k : Step) (post : list Step) :
  run cfg s0 ins = pre ++ j :: mid ++ k :: post ->
  turned_on j = true ->
  forallb (fun st => negb (turned_off st)) mid = true ->
  pump_on (before k) = true
  /\ last_change (before k) = now (input j)
  /\ on_start (before k) = now (input j).
Proof.
  intros Hrun Hj Hmid.
  apply run_suffix in Hrun as (s' & ins' & Hrun). symmetry in Hrun.
  apply run_cons_inv in Hrun as (ij & restj & _ & Hjstep & Hrun).
  unfold turned_on in Hj. apply andb_prop in Hj as [Hwas Hnow].
  apply negb_true_iff in Hwas.
  assert (pump_on (after j) = true /\ last_change (after j) = now (input j)
          /\ on_start (after j) = now (input j)) as Hstart.
  { rewrite Hjstep in Hwas, Hnow |- *. simpl input. simpl before in Hwas.
    destruct (step_moves cfg s' ij) as [Hsame | _ _ Hst | Hon _ _].
    - apply pump_state_same in Hsame as (Hp & _). congruence.
    - apply pump_state_eq in Hst as (Hp & Hc & Ho & _). auto.
    - congruence. }
  symmetry in Hrun.
  exact (through_stretch cfg
           (fun s => pump_on s = true /\ last_change s = now (input j)
                     /\ on_start s = now (input j))
           (kept_on cfg (now (input j)))
           mid (after j) restj k post Hstart Hrun Hmid).
Qed.

(** The outcome of an iteration that starts with the pump on. *)
Lemma step_when_on (cfg : Config) (s : State) (i : Input) :
  pump_on s = true ->
  let e := fst (out_manual (out (step cfg s i))) in
  let c := snd (out_manual (out (step cfg s i))) in
  pump_on (after (step cfg s i)) = negb (turns_off (now i) e c s)
  /\ out_off (out (step cfg s i)) =
       if turns_off (now i) e c s then Some (cause (now i) e c s) else None.
Proof.
  intros Hon e c. subst e c. simpl out. simpl after.
  pose proof (tick_pump_state cfg s i) as Hp.
  pose proof (tick_out_off cfg s i) as Ho.
  pose proof (tick_out cfg s i) as (Hm & _).
  cbv zeta in Hp, Ho, Hm. rewrite <- Hm in Hp, Ho.
  destruct (turns_off_window (now i) (fst (out_manual (snd (tick cfg s i))))
              (snd (out_manual (snd (tick cfg s i)))) s) as (Hw & Hc).
  rewrite Hw in Hp, Ho. rewrite Hc in Ho. rewrite Hon in Hp, Ho. simpl in Ho.
  split; [| exact Ho].
  destruct (turns_off _ _ _ s).
  - now apply pump_state_eq in Hp as (-> & _).
  - apply pump_state_same in Hp as (-> & _). exact Hon.
Qed.

(** C4. In every run of the loop, at an iteration made while the pump has
    been on since the switch-on of [j]: once MAX_ON_SEC (since on_start)
    and MIN_ON_SEC (since the last change) have both elapsed, that very
    iteration switches the pump off, logs the safety cutoff and starts the
    rest period; and when the pump is still on after the iteration, less
    than MAX_ON_SEC has elapsed, or less than MIN_ON_SEC. *)
Theorem safety_cutoff_bounds_on_time (cfg : Config) (s0 : State) (ins : list Input)
    (pre : list Step) (j : Step) (mid : list Step) (k : Step) (post : list Step) :
  run cfg s0 ins = pre ++ j :: mid ++ k :: post ->
  turned_on j = true ->
  forallb (fun st => negb (turned_off st)) mid = true ->
  on_start (before k) = now (input j)
  /\ last_change (before k) = now (input j)
  /\ (MAX_ON_SEC <= now (input k) - now (input j) ->
      MIN_ON_SEC <= now (input k) - now (input j) ->
      pump_on (after k) = false
      /\ out_off (out k) = Some SafetyCutoff
      /\ rest_until (after k) = now (input k) + REST_SEC)
  /\ (pump_on (after k) = true ->
      now (input k) - now (input j) < MAX_ON_SEC
      \/ now (input k) - now (input j) < MIN_ON_SEC).
Proof.
  intros Hrun Hj Hmid.
  destruct (on_since _ _ _ _ _ _ _ _ Hrun Hj Hmid) as (Hon & Hc & Ho).
  rewrite app_comm_cons, app_assoc in Hrun.
  destruct (run_step _ _ _ _ _ _ Hrun) as (i & rest & Hstep & _).
  destruct (step_when_on cfg (before k) i Hon) as (Hp & Hoff).
  cbv zeta in Hp, Hoff. rewrite <- Hstep in Hp, Hoff.
  assert (input k = i) as Hi by (rewrite Hstep; reflexivity).
  rewrite Hi. split; [exact Ho |]. split; [exact Hc |]. split.
  - intros Hmax Hmin.
    assert (turns_off (now i) (fst (out_manual (out k))) (snd (out_manual (out k)))
                      (before k) = true) as Hturn.
    { unfold turns_off, is_safety_cut_off. rewrite Hon, Ho, Hc.
      apply Qle_bool_iff in Hmax, Hmin. now rewrite Hmax, Hmin. }
    rewrite Hturn in Hp, Hoff. simpl in Hp. split; [exact Hp |]. split.
    + rewrite Hoff. unfold cause, is_safety_cut_off. rewrite Hon, Ho.
      apply Qle_bool_iff in Hmax. now rewrite Hmax.
    + rewrite Hstep.
      destruct (step_moves cfg (before k) i) as [Hsame | Hwas _ _ | _ _ Hst].
      * apply pump_state_same in Hsame as (Hsame & _).
        rewrite <- Hstep in Hsame. congruence.
      * congruence.
      * now apply pump_state_eq in Hst as (_ & _ & _ & ->).
  - intros Hstill. rewrite Hstill in Hp. symmetry in Hp.
    apply negb_true_iff in Hp. unfold turns_off, is_safety_cut_off in Hp.
    rewrite Hon, Ho, Hc in Hp. simpl in Hp.
    destruct (Qle_bool MIN_ON_SEC (now i - now (input j))) eqn:Emin.
    + left. rewrite andb_true_r in Hp. apply orb_false_elim in Hp as [Hp _].
      apply orb_false_elim in Hp as [Hp _]. now apply Qle_bool_false in Hp.
    + right. now apply Qle_bool_false in Emin.
Qed.

Lemma safety_cutoff_bounds_on_time_witness :
  let tr := run loaded boot dry_stalled in
  let idle := step loaded boot (reading 0 0 RequestException 0) in
  turned_on (nth 1 tr idle) = true
  /\ MAX_ON_SEC <= 70 - (16 # 5)
  /\ pump_on (after (nth 2 tr idle)) = false
  /\ out_off (out (nth 2 tr idle)) = Some SafetyCutoff.
Proof.
  intros tr idle.
  destruct (safety_cutoff_bounds_on_time loaded boot dry_stalled
              (firstn 1 tr) (nth 1 tr idle) [] (nth 2 tr idle) []
              eq_refl eq_refl eq_refl) as (_ & _ & Hcut & _).
  assert (MAX_ON_SEC <= 70 - (16 # 5)) as Hmax by (unfold MAX_ON_SEC; lra).
  assert (MIN_ON_SEC <= 70 - (16 # 5)) as Hmin by (unfold MIN_ON_SEC; lra).
  destruct (Hcut Hmax Hmin) as (Hoff & Hcause & _).
  split; [reflexivity |]. split; [exact Hmax |]. split; [exact Hoff | exact Hcause].
Defined.

(** ** Manual override *)

Lemma decision_manual (p th soil_pct em : Q) (c : bool) :
  decision p th soil_pct em true c = (c, "MANUAL"%string).
Proof. reflexivity. Qed.

(** With manual mode on and the pump commanded off, the switch-off test of
    a running pump is the minimum-on test alone. *)
Lemma turns_off_manual (t : Q) (s : State) :
  pump_on s = true ->
  turns_off t true false s = Qle_bool MIN_ON_SEC (t - last_change s).
Proof.
  intros Hon. unfold turns_off, is_manual_off. rewrite Hon. simpl.
  now rewrite orb_true_r.
Qed.

(** C8, as the code has it. In every run of the loop, an iteration that
    sees manual mode enabled with the pump commanded off decides "off"
    with reason MANUAL whatever the soil percentage and the score, never
    switches the pump on, and switches a running pump off exactly when at
    least MIN_ON_SEC have elapsed since it was switched on: not before,
    and at the first such iteration. *)
Theorem manual_off_waits_for_min_on (cfg : Config) (s0 : State) (ins : list Input)
    (pre : list Step) (k : Step) (post : list Step) :
  run cfg s0 ins = pre ++ k :: post ->
  out_manual (out k) = (true, false) ->
  out_decision (out k) = false
  /\ out_reason (out k) = "MANUAL"%string
  /\ turned_on k = false
  /\ forall (pre' : list Step) (j : Step) (mid : list Step),
       pre = pre' ++ j :: mid ->
       turned_on j = true ->
       forallb (fun st => negb (turned_off st)) mid = true ->
       (MIN_ON_SEC <= now (input k) - now (input j) ->
        pump_on (after k) = false
        /\ out_off (out k) =
             Some (if Qle_bool MAX_ON_SEC (now (input k) - now (input j))
                   then SafetyCutoff else ManualOff))
       /\ (now (input k) - now (input j) < MIN_ON_SEC ->
           pump_on (after k) = true /\ out_off (out k) = None).
Proof.
  intros Hrun Hman.
  destruct (run_step _ _ _ _ _ _ Hrun) as (i & rest & Hstep & _).
  assert (input k = i) as Hi by (rewrite Hstep; reflexivity).
  pose proof (tick_out cfg (before k) i) as (Hm & _ & Hd & Hr).
  cbv zeta in Hm, Hd, Hr. rewrite <- Hm in Hd, Hr.
  change (snd (tick cfg (before k) i)) with (out (step cfg (before k) i)) in Hd, Hr.
  rewrite <- Hstep in Hd, Hr. rewrite Hman in Hd, Hr. simpl in Hd, Hr.
  split; [exact Hd |]. split; [exact Hr |]. split.
  - unfold turned_on. destruct (pump_on (before k)) eqn:Hwas; [reflexivity |].
    simpl. rewrite Hstep.
    destruct (step_moves cfg (before k) i) as [Hsame | _ Hon _ | Hon _ _].
    + apply pump_state_same in Hsame as (-> & _). now rewrite Hwas.
    + rewrite <- Hstep, Hd in Hon. unfold turns_on in Hon.
      rewrite andb_false_r in Hon. discriminate.
    + congruence.
  - intros pre' j mid -> Hj Hmid.
    rewrite <- app_assoc in Hrun. simpl in Hrun.
    destruct (on_since _ _ _ _ _ _ _ _ Hrun Hj Hmid) as (Hon & Hc & Ho).
    destruct (step_when_on cfg (before k) i Hon) as (Hp & Hoff).
    cbv zeta in Hp, Hoff. rewrite <- Hstep in Hp, Hoff.
    rewrite Hman in Hp, Hoff. simpl fst in Hp, Hoff. simpl snd in Hp, Hoff.
    rewrite (turns_off_manual _ _ Hon), Hc in Hp, Hoff. rewrite Hi. split.
    + intros Hmin. apply Qle_bool_iff in Hmin. rewrite Hmin in Hp, Hoff.
      split; [exact Hp |]. rewrite Hoff.
      unfold cause, is_safety_cut_off, is_manual_off. rewrite Hon, Ho.
      now destruct (Qle_bool MAX_ON_SEC (now i - now (input j))).
    + intros Hshort. apply Qle_bool_false in Hshort. rewrite Hshort in Hp, Hoff.
      split; [exact Hp | exact Hoff].
Qed.

Lemma manual_off_waits_for_min_on_witness :
  let tr := run loaded boot dry_manual_off in
  let idle := step loaded boot (reading 0 0 RequestException 0) in
  turned_on (nth 1 tr idle) = true
  /\ out_manual (out (nth 5 tr idle)) = (true, false)
  /\ MIN_ON_SEC <= (48 # 5) - (16 # 5)
  /\ pump_on (after (nth 5 tr idle)) = false
  /\ out_off (out (nth 5 tr idle)) = Some ManualOff.
Proof.
  intros tr idle.
  destruct (manual_off_waits_for_min_on loaded boot dry_manual_off
              (firstn 5 tr) (nth 5 tr idle) [] eq_refl eq_refl)
    as (_ & _ & _ & Hsince).
  destruct (Hsince (firstn 1 tr) (nth 1 tr idle) (firstn 3 (skipn 2 tr))
              eq_refl eq_refl eq_refl) as (Hlate & _).
  assert (MIN_ON_SEC <= (48 # 5) - (16 # 5)) as Hmin by (unfold MIN_ON_SEC; lra).
  destruct (Hlate Hmin) as (Hoff & Hcause).
  split; [reflexivity |]. split; [reflexivity |]. split; [exact Hmin |].
  split; [exact Hoff | exact Hcause].
Defined.

(** C8 as it is worded fails: with dry soil (10.1 %, below the emergency
    threshold) the pump is switched on at 3.2; the iteration at 6.4 sees
    manual mode with the pump commanded off and leaves the pump on; the
    pump is still on when the iteration at 9.6 starts, more than
    MIN_ON_SEC after the switch-on, and only that iteration switches it
    off. *)
Lemma manual_off_later_than_min_on :
  let tr := run loaded boot dry_manual_off in
  let idle := step loaded boot (reading 0 0 RequestException 0) in
  soil (input (nth 3 tr idle)) <= EMERGENCY_ON_PCT
  /\ turned_on (nth 1 tr idle) = true
  /\ now (input (nth 1 tr idle)) = 16 # 5
  /\ now (input (nth 3 tr idle)) = 32 # 5
  /\ out_manual (out (nth 3 tr idle)) = (true, false)
  /\ pump_on (after (nth 3 tr idle)) = true
  /\ pump_on (after (nth 4 tr idle)) = true
  /\ now (input (nth 5 tr idle)) = 48 # 5
  /\ pump_on (before (nth 5 tr idle)) = true
  /\ turned_off (nth 5 tr idle) = true
  /\ (16 # 5) + MIN_ON_SEC < 48 # 5.
Proof.
  intros tr idle. split_and!; try reflexivity.
  unfold EMERGENCY_ON_PCT. simpl. lra.
Qed.

(** The manual state an iteration works with is the outcome of the
    override check on the state it started from. *)
Lemma manual_seen (cfg : Config) (s : State) (i : Input) :
  out_manual (out (step cfg s i)) =
    if poll_due (now i) s then get_manual_control_status (control_response i)
    else (false, false).
Proof.
  destruct (tick_out cfg s i) as (Hm & _). cbv zeta in Hm.
  simpl out. rewrite Hm. unfold manual_override_check.
  now rewrite poll_due_update_hour_window.
Qed.

(** Without a fetched state the iteration works with [(false, false)]. *)
Lemma manual_seen_default (cfg : Config) (s : State) (i : Input) :
  Design.fetched (step cfg s i) = None ->
  poll_due (now i) s = true ->
  out_manual (out (step cfg s i)) = (false, false).
Proof.
  intros Hf Hdue. rewrite manual_seen, Hdue.
  unfold Design.fetched in Hf. simpl in Hf. rewrite Hdue in Hf.
  destruct (control_response i) as [| code e c]; [reflexivity |].
  unfold get_manual_control_status.
  destruct (code =? 200)%Z; [discriminate Hf | reflexivity].
Qed.

(** C2, as the code has it. In every run of the loop: an iteration whose
    poll is answered sees the fetched state (absent fields read as false);
    an iteration whose poll fails sees [(false, false)], whatever was
    fetched before; and as long as no fetch has succeeded, every iteration
    sees [(false, false)], which is then also the state the document
    expects. *)
Theorem poll_outcome_seen (cfg : Config) (s0 : State) (ins : list Input)
    (pre : list Step) (k : Step) (post : list Step) :
  run cfg s0 ins = pre ++ k :: post ->
  (forall m, Design.fetched k = Some m -> out_manual (out k) = m)
  /\ (poll_due (now (input k)) (before k) = true ->
      Design.fetched k = None ->
      out_manual (out k) = (false, false))
  /\ (Design.never_fetched (pre ++ [k]) = true ->
      out_manual (out k) = (false, false)
      /\ Design.last_fetched (false, false) (pre ++ [k]) = (false, false)).
Proof.
  intros Hrun.
  destruct (run_step _ _ _ _ _ _ Hrun) as (i & rest & Hstep & _).
  assert (input k = i) as Hi by (rewrite Hstep; reflexivity).
  split; [| split].
  - intros m Hf. rewrite Hstep in Hf |- *. rewrite manual_seen.
    unfold Design.fetched in Hf. simpl in Hf.
    destruct (poll_due (now i) (before k)); [| discriminate Hf].
    destruct (control_response i) as [| code e c]; [discriminate Hf |].
    unfold get_manual_control_status.
    destruct (code =? 200)%Z; [now injection Hf | discriminate Hf].
  - intros Hdue Hf. rewrite Hi in Hdue. rewrite Hstep in Hf |- *.
    now apply manual_seen_default.
  - intros Hnever. unfold Design.never_fetched in Hnever.
    rewrite forallb_app in Hnever. apply andb_prop in Hnever as [Hpre Hk].
    simpl in Hk. rewrite andb_true_r in Hk.
    destruct (Design.fetched k) eqn:Hf; [discriminate Hk |].
    split.
    + rewrite Hstep in Hf |- *. rewrite manual_seen.
      destruct (poll_due (now i) (before k)) eqn:Hdue; [| reflexivity].
      pose proof (manual_seen_default cfg _ i Hf Hdue) as Hseen.
      now rewrite manual_seen, Hdue in Hseen.
    + clear Hrun Hstep. revert Hpre.
      induction pre as [| st pre IH]; simpl; intros Hpre.
      * now rewrite Hf.
      * apply andb_prop in Hpre as [Hst Hpre].
        destruct (Design.fetched st); [discriminate Hst |]. now apply IH.
Qed.

Lemma poll_outcome_seen_witness :
  let tr := run loaded boot wet_manual_lost in
  let idle := step loaded boot (reading 0 0 RequestException 0) in
  Design.fetched (nth 1 tr idle) = Some (true, true)
  /\ out_manual (out (nth 1 tr idle)) = (true, true).
Proof.
  intros tr idle.
  destruct (poll_outcome_seen loaded boot wet_manual_lost
              (firstn 1 tr) (nth 1 tr idle) (skipn 2 tr) eq_refl)
    as (Hgot & _).
  split; [reflexivity | exact (Hgot (true, true) eq_refl)].
Defined.

(** C2 as it is worded fails: the poll at 3.2 is answered with manual mode
    on and the pump commanded on; the poll at 6.4 fails, and the decision
    logic then sees [(false, false)], while the last state fetched is
    [(true, true)]. *)
Lemma failed_poll_forgets_fetched_state :
  let tr := run loaded boot wet_manual_lost in
  let idle := step loaded boot (reading 0 0 RequestException 0) in
  Design.fetched (nth 1 tr idle) = Some (true, true)
  /\ poll_due (now (input (nth 3 tr idle))) (before (nth 3 tr idle)) = true
  /\ control_response (input (nth 3 tr idle)) = RequestException
  /\ Design.last_fetched (false, false) tr = (true, true)
  /\ out_manual (out (nth 3 tr idle)) = (false, false).
Proof. intros tr idle. split_and!; reflexivity. Qed.

(** The iteration in between, at 4.8, makes no poll: it too works with
    [(false, false)], the locals being reset on every pass. *)
Example unpolled_iteration_sees_default :
  let tr := run loaded boot wet_manual_lost in
  let idle := step loaded boot (reading 0 0 RequestException 0) in
  poll_due (now (input (nth 2 tr idle))) (before (nth 2 tr idle)) = false
  /\ out_manual (out (nth 2 tr idle)) = (false, false).
Proof. intros tr idle. split; reflexivity. Qed.

(** ** Decision arbitration *)

(** The arbitration of the source is the Decision Engine of the document,
    the reason rendered as its tag. *)
Lemma decision_refines_engine (p th soil_pct em : Q) (e c : bool) :
  decision p th soil_pct em e c =
    (fst (Design.decision_engine p th soil_pct em (e, c)),
     Design.tag (snd (Design.decision_engine p th soil_pct em (e, c)))).
Proof.
  unfold decision, Design.decision_engine. simpl fst. simpl snd.
  destruct e; [reflexivity |].
  destruct (Qle_bool th p); [reflexivity |].
  now destruct (Qle_bool soil_pct em).
Qed.

(** C5. The decision and the reason of an iteration are a function of the
    score, the threshold, the soil percentage, the emergency threshold and
    the manual state alone, and that function is the Decision Engine of
    the document: in manual mode the commanded pump state with reason
    MANUAL, whatever the score and the soil (a commanded "off" suppresses
    the emergency rule); otherwise "AI trigger or emergency trigger", with
    reason AI, else EMERGENCY, else NO.  Probability 0.9 against threshold
    0.06 gives AI; probability 0 with soil 15 against emergency threshold
    20 gives EMERGENCY; neither trigger gives NO. *)
Theorem decision_is_arbitration (cfg : Config) (s : State) (i : Input)
    (p th soil_pct em : Q) (c : bool) :
  (out_decision (out (step cfg s i)), out_reason (out (step cfg s i))) =
    (fst (Design.decision_engine (out_proba (out (step cfg s i))) (THRESH cfg)
            (soil i) EMERGENCY_ON_PCT (out_manual (out (step cfg s i)))),
     Design.tag
       (snd (Design.decision_engine (out_proba (out (step cfg s i))) (THRESH cfg)
               (soil i) EMERGENCY_ON_PCT (out_manual (out (step cfg s i))))))
  /\ Design.decision_engine p th soil_pct em (true, c) = (c, Design.Manual)
  /\ decision p th soil_pct em true c = (c, "MANUAL"%string)
  /\ decision p th soil_pct em false c =
       (Qle_bool th p || Qle_bool soil_pct em,
        if Qle_bool th p then "AI"%string
        else if Qle_bool soil_pct em then "EMERGENCY"%string else "NO"%string)
  /\ decision (9 # 10) (6 # 100) soil_pct em false c = (true, "AI"%string)
  /\ decision 0 (6 # 100) 15 20 false c = (true, "EMERGENCY"%string)
  /\ decision 0 (6 # 100) 50 20 false c = (false, "NO"%string).
Proof.
  split_and!; try reflexivity.
  destruct (tick_out cfg s i) as (Hm & Hp & Hd & Hr). cbv zeta in Hm, Hp, Hd, Hr.
  simpl out. rewrite Hd, Hr, Hp, Hm.
  rewrite decision_refines_engine. simpl fst. simpl snd.
  now destruct (manual_override_check _ _ _).
Qed.

(** ** Fallback scorer *)

(** C1 fails on the code. With the model file missing the loop starts in
    fallback mode (any other load error ends the process); the score is 0
    on every iteration; but the threshold is 0 as well, so the AI trigger
    [proba >= THRESH] holds on every iteration: outside manual mode the
    decision is always "on" with reason AI, and with wet soil and the
    server out of reach the pump is switched on at the second
    iteration. *)
Theorem fallback_threshold_fires_ai (s : State) (i : Input) :
  startup FileNotFoundError = Some fallback
  /\ startup OtherException = None
  /\ out_proba (out (step fallback s i)) = 0
  /\ out_reason (out (step fallback s i)) =
       (if fst (out_manual (out (step fallback s i)))
        then "MANUAL"%string else "AI"%string)
  /\ out_decision (out (step fallback s i)) =
       (if fst (out_manual (out (step fallback s i)))
        then snd (out_manual (out (step fallback s i))) else true)
  /\ map (fun st => (soil (input st), out_proba (out st), out_reason (out st),
                     pump_on (after st)))
         (run fallback boot wet_offline)
     = [ (100, 0, "AI"%string, false);
         (100, 0, "AI"%string, true);
         (100, 0, "AI"%string, true) ].
Proof.
  destruct (tick_out fallback s i) as (Hm & Hp & Hd & Hr).
  cbv zeta in Hm, Hp, Hd, Hr. simpl out.
  rewrite Hd, Hr, Hp, Hm.
  destruct (manual_override_check _ _ _) as [e c]. simpl fst. simpl snd.
  split_and!; try reflexivity; now destruct e.
Qed.

(** ** Hourly run time *)

Lemma switches_keep_counter (t : Q) (s : State) :
  run_sec_this_hour (switch_on t s) = run_sec_this_hour s
  /\ run_sec_this_hour (switch_off t s) = run_sec_this_hour s.
Proof. split; reflexivity. Qed.

(** The window is reset, with the counter, exactly when the bucket has
    elapsed. *)
Lemma update_hour_window_reset (t : Q) (s : State) :
  (inject_Z HOURLY_BUCKET <= t - hour_window_start s ->
   hour_window_start (update_hour_window t s) = t
   /\ run_sec_this_hour (update_hour_window t s) = 0%Z)
  /\ (t - hour_window_start s < inject_Z HOURLY_BUCKET ->
      update_hour_window t s = s).
Proof.
  unfold update_hour_window. split; intros H.
  - apply Qle_bool_iff in H. rewrite H. auto.
  - apply Qle_bool_false in H. now rewrite H.
Qed.

(** C7 fails on the code. An iteration that ends with the pump on adds 1
    to the counter (up to HOURLY_BUCKET), whatever time has passed since
    the iteration before; the window start is kept or reset by
    [update_hour_window] alone.  With an iteration every 1.6 s the pump
    runs from 3.2 to 9.6, and the counter then reads 4. *)
Theorem run_counter_counts_iterations (cfg : Config) (s : State) (i : Input) :
  run_sec_this_hour (after (step cfg s i)) =
    (if pump_on (after (step cfg s i))
     then Z.min HOURLY_BUCKET (run_sec_this_hour (update_hour_window (now i) s) + 1)
     else run_sec_this_hour (update_hour_window (now i) s))
  /\ hour_window_start (after (step cfg s i)) =
       hour_window_start (update_hour_window (now i) s)
  /\ map (fun st => (now (input st), pump_on (after st), run_sec_this_hour (after st)))
         (firstn 6 (run loaded boot dry_offline))
     = [ (8 # 5, false, 0%Z); (16 # 5, true, 1%Z); (24 # 5, true, 2%Z);
         (32 # 5, true, 3%Z); (8, true, 4%Z); (48 # 5, false, 4%Z) ].
Proof.
  split_and!; try reflexivity.
  - simpl after. unfold tick.
    destruct (manual_override_check _ _ _) as [e c].
    destruct (decision _ _ _ _ e c) as [fd r]. simpl fst.
    unfold count_run.
    destruct (turns_on _ _ _); destruct (turns_off _ _ _ _); reflexivity.
  - simpl after. unfold tick.
    destruct (manual_override_check _ _ _) as [e c].
    destruct (decision _ _ _ _ e c) as [fd r]. simpl fst.
    destruct (turns_on _ _ _); destruct (turns_off _ _ _ _); reflexivity.
Qed.

(** ** Reporting round trip *)

Lemma prefix_append (r q : string) : String.prefix r (String.append r q) = true.
Proof.
  induction r as [| a r IH]; simpl.
  - now destruct q.
  - destruct (ascii_dec a a) as [_ | Hne]; [exact IH | now elim Hne].
Qed.

Lemma contains_here (r q : string) : Design.contains r (String.append r q) = true.
Proof.
  destruct r as [| a r]; destruct q as [| b q]; simpl;
    try reflexivity; rewrite ?prefix_append;
    destruct (ascii_dec a a) as [_ | Hne]; try reflexivity; now elim Hne.
Qed.

Lemma contains_skip (p r s : string) :
  Design.contains r s = true -> Design.contains r (String.append p s) = true.
Proof.
  intros H. induction p as [| a p IH]; simpl; [exact H |].
  rewrite IH. apply orb_true_r.
Qed.

(** The text sent for a running pump carries the reason tag. *)
Lemma required_text_has_tag (tag : string) :
  Design.contains tag
    (String.append "Irrigation required (Reason: " (String.append tag ")")) = true.
Proof. apply contains_skip, contains_here. Qed.

(** C9, as the code has it. Every payload [send_sensor_data] builds passes
    the validation of the server and is stored and answered (201) as it
    was sent: irrigation_status, soil_moisture and the air readings (25.0
    and 50.0 for absent ones) come back unchanged; ai_decision contains
    the reason tag when irrigation_status is true, and is the fixed text
    "Irrigation not required" when it is false. *)
Theorem report_round_trip {lax : Backend.Lax} (t h : option Q) (soil_pct : Q)
    (status : bool) (tag : string) (clock : Z) (db : Backend.Db) :
  exists d : Backend.SensorDataBase,
    Backend.parse_SensorDataCreate (send_sensor_data t h soil_pct status tag) = Some d
    /\ Backend.irrigation_status d = status
    /\ Backend.soil_moisture d = soil_pct
    /\ Backend.temperature d = default 25 t
    /\ Backend.humidity d = default 50 h
    /\ (if status
        then Design.contains tag (Backend.ai_decision d) = true
        else Backend.ai_decision d = "Irrigation not required"%string)
    /\ exists row : Backend.DBSensorData,
         snd (Backend.handle clock db
                (Backend.PostDataSensor (send_sensor_data t h soil_pct status tag)))
           = Backend.SensorData 201 row
         /\ Backend.row_data row = d.
Proof.
  eexists. split; [reflexivity |]. simpl.
  split_and!.
  - reflexivity.
  - reflexivity.
  - now destruct t.
  - now destruct h.
  - destruct status; [apply required_text_has_tag | reflexivity].
  - eexists. split; reflexivity.
Qed.

(** C9 as it is worded fails: the report pushed at 12.8 in the dry,
    offline run is made while the pump rests; the reason of that iteration
    is EMERGENCY, irrigation_status comes back [false] as sent, and the
    ai_decision that comes back is "Irrigation not required", which does
    not contain the tag. *)
Lemma resting_report_drops_tag :
  let tr := run loaded boot dry_offline in
  let idle := step loaded boot (reading 0 0 RequestException 0) in
  let st := nth 7 tr idle in
  out_reason (out st) = "EMERGENCY"%string
  /\ pump_on (after st) = false
  /\ (out_report (out st) ≫= Backend.parse_SensorDataCreate (lax := Reading.example))
     = Some {| Backend.temperature := 22; Backend.humidity := 40;
               Backend.soil_moisture := 101 # 10;
               Backend.irrigation_status := false;
               Backend.ai_decision := "Irrigation not required" |}
  /\ Design.contains "EMERGENCY" "Irrigation not required" = false.
Proof. intros tr idle st. split_and!; reflexivity. Qed.

(** ** Manual-control status on the server *)

Section ManualControl.

Import Backend.

Context {lax : Lax}.

Lemma fresh_db_automatic : automatic fresh_db.
Proof. intros row H. unfold fresh_db in H. simpl in H. now rewrite lookup_empty in H. Qed.

Lemma get_manual_control_row (clock : Z) (db : Db) :
  manual_control (fst (get_manual_control clock db)) !! 1%Z
  = Some (snd (get_manual_control clock db)).
Proof.
  unfold get_manual_control.
  destruct (manual_control db !! 1%Z) as [row |] eqn:Hrow; simpl.
  - exact Hrow.
  - apply lookup_insert_eq.
Qed.

Lemma get_manual_control_automatic (clock : Z) (db : Db) :
  automatic db ->
  automatic (fst (get_manual_control clock db))
  /\ manual_enabled (snd (get_manual_control clock db)) = false
  /\ pump_command (snd (get_manual_control clock db)) = false.
Proof.
  intros Hdb. unfold get_manual_control.
  destruct (manual_control db !! 1%Z) as [row |] eqn:Hrow; simpl.
  - destruct (Hdb row Hrow) as (He & Hc). auto.
  - split; [| auto]. intros row. simpl. rewrite lookup_insert_eq.
    intros [= <-]. auto.
Qed.

Lemma handle_keeps_automatic (clock : Z) (db : Db) (r : request) :
  applies_update (clock, r) = false ->
  automatic db -> automatic (fst (handle clock db r)).
Proof.
  intros Hr Hdb. destruct r as [body | | body]; simpl.
  - unfold applies_update in Hr. simpl in Hr.
    destruct (parse_ManualControlUpdate body); [discriminate Hr | exact Hdb].
  - pose proof (get_manual_control_automatic clock db Hdb) as (H & _).
    now destruct (get_manual_control clock db).
  - destruct (parse_SensorDataCreate body); exact Hdb.
Qed.

Lemma serve_keeps_automatic (reqs : list (Z * request)) :
  forall db : Db,
    forallb (fun r => negb (applies_update r)) reqs = true ->
    automatic db -> automatic (serve db reqs).
Proof.
  induction reqs as [| [clock r] reqs IH]; simpl; intros db Hreqs Hdb.
  - exact Hdb.
  - apply andb_prop in Hreqs as [Hr Hreqs]. apply negb_true_iff in Hr.
    apply IH; [exact Hreqs |]. now apply handle_keeps_automatic.
Qed.

End ManualControl.

(** C10. A GET of the manual-control status is answered with status 200
    and the row of key 1 on every database, the row being created when it
    is missing; on a fresh database it creates and returns the default
    row; and after any requests none of which applied a manual-control
    update, it reports manual mode disabled and the pump commanded off. *)
Theorem manual_control_status_defaults {lax : Backend.Lax} (clock : Z) (db : Backend.Db)
    (reqs : list (Z * Backend.request))
    (Hreqs : forallb (fun r => negb (Backend.applies_update r)) reqs = true) :
  (exists row : Backend.DBManualControl,
     Backend.manual_control (fst (Backend.handle clock db Backend.GetControlStatus))
       !! 1%Z = Some row
     /\ snd (Backend.handle clock db Backend.GetControlStatus)
        = Backend.ManualControlStatus 200 (Backend.manual_enabled row)
            (Backend.pump_command row) (Backend.timestamp row))
  /\ Backend.handle clock Backend.fresh_db Backend.GetControlStatus
     = ({| Backend.manual_control :=
             {[ 1%Z := {| Backend.id := 1; Backend.manual_enabled := false;
                          Backend.pump_command := false;
                          Backend.timestamp := clock |} ]};
           Backend.sensor_data := [] |},
        Backend.ManualControlStatus 200 false false clock)
  /\ exists stamp : Z,
       snd (Backend.handle clock (Backend.serve Backend.fresh_db reqs)
              Backend.GetControlStatus)
       = Backend.ManualControlStatus 200 false false stamp.
Proof.
  split; [| split].
  - exists (snd (Backend.get_manual_control clock db)).
    pose proof (get_manual_control_row clock db) as Hrow. simpl.
    destruct (Backend.get_manual_control clock db) as [db' row]. auto.
  - unfold Backend.handle, Backend.get_manual_control, Backend.fresh_db. simpl.
    rewrite lookup_empty. simpl. rewrite insert_empty. reflexivity.
  - pose proof (serve_keeps_automatic reqs Backend.fresh_db Hreqs fresh_db_automatic)
      as Hauto.
    pose proof (get_manual_control_automatic clock _ Hauto) as (_ & He & Hc).
    simpl. destruct (Backend.get_manual_control clock _) as [db' row].
    simpl in He, Hc. unfold Backend.render_status. simpl. rewrite He, Hc.
    now exists (Backend.timestamp row).
Qed.

Lemma manual_control_status_defaults_witness :
  snd (Backend.handle (lax := Reading.example) 9
         (Backend.serve (lax := Reading.example) Backend.fresh_db
                           [ (5%Z, Backend.GetControlStatus);
                             (7%Z, Backend.PostDataSensor
                                     (send_sensor_data None None 50 false "NO")) ])
         Backend.GetControlStatus)
  = Backend.ManualControlStatus 200 false false 5.
Proof.
  destruct (manual_control_status_defaults (lax := Reading.example) 9 Backend.fresh_db
              [ (5%Z, Backend.GetControlStatus);
                (7%Z, Backend.PostDataSensor
                        (send_sensor_data None None 50 false "NO")) ]
              eq_refl) as (_ & _ & stamp & Hget).
  rewrite Hget. f_equal.
  vm_compute in Hget. now injection Hget.
Defined.

(* ===================================================================== *)
(** * Part III: the rest of the code                                      *)
(* ===================================================================== *)

(** ** Sensing *)

Section Bits.

Local Open Scope Z_scope.

(** A byte shares no bit with a value shifted left by eight. *)
Lemma high_low_disjoint (x b : Z) : 0 <= b < 256 -> Z.land (Z.shiftl x 8) b = 0.
Proof.
  intros Hb. apply Z.bits_inj'. intros n Hn.
  rewrite Z.land_spec, Z.bits_0.
  destruct (Z.lt_ge_cases n 8) as [Hlow | Hhigh].
  - now rewrite Z.shiftl_spec_low.
  - assert (Z.testbit b n = false) as ->; [| apply andb_false_r].
    apply Z.testbit_false; [exact Hn |].
    rewrite Z.div_small; [reflexivity |].
    assert (2 ^ 8 <= 2 ^ n) as Hpow by (apply Z.pow_le_mono_r; lia).
    change (2 ^ 8) with 256 in Hpow. lia.
Qed.

End Bits.

(** X1. Whatever the first two bytes of the answer, when the third is a
    byte the value [read_adc] decodes is the ten-bit number made of the
    two low bits of the second byte and the third byte: it lies in
    0..1023.  An answer of fewer than three bytes is an error. *)
Theorem read_adc_ten_bits (r0 r1 r2 : Z) (rest : list Z) :
  (0 <= r2 < 256)%Z ->
  exists v : Z,
    Sensing.read_adc (r0 :: r1 :: r2 :: rest) = Some v
    /\ v = (256 * (r1 mod 4) + r2)%Z
    /\ (0 <= v <= 1023)%Z
    /\ Sensing.read_adc [r0; r1] = None.
Proof.
  intros Hb. eexists. split; [reflexivity |].
  assert (Z.land r1 3 = r1 mod 4)%Z as Hmask
    by (change 3%Z with (Z.ones 2); now rewrite Z.land_ones).
  assert (Z.lor (Z.shiftl (Z.land r1 3) 8) r2 = 256 * (r1 mod 4) + r2)%Z as Hval.
  { rewrite Hmask.
    pose proof (Z.add_lor_land (Z.shiftl (r1 mod 4) 8) r2) as Hsum.
    rewrite high_low_disjoint, Z.add_0_r in Hsum by exact Hb.
    rewrite Hsum, Z.shiftl_mul_pow2 by lia.
    change (2 ^ 8)%Z with 256%Z. lia. }
  rewrite Hval. split; [reflexivity |]. split; [| reflexivity].
  pose proof (Z.mod_pos_bound r1 4 ltac:(lia)). lia.
Qed.

Lemma read_adc_ten_bits_witness :
  (0 <= 171 < 256)%Z /\ Sensing.read_adc [0; 254; 171]%Z = Some 683%Z.
Proof.
  split; [lia |].
  destruct (read_adc_ten_bits 0 254 171 [] ltac:(lia)) as (v & Hv & -> & _).
  exact Hv.
Defined.

Section Median.

Variables lo hi : Z.

Lemma count_within_app (l1 l2 : list Z) :
  Samples.count_within lo hi (l1 ++ l2)
  = (Samples.count_within lo hi l1 + Samples.count_within lo hi l2)%nat.
Proof. induction l1 as [| x l1 IH]; simpl; [reflexivity | rewrite IH; lia]. Qed.

Lemma count_within_length (l : list Z) :
  (Samples.count_within lo hi l <= List.length l)%nat.
Proof.
  induction l as [| x l IH]; simpl; [lia |].
  destruct (Samples.within lo hi x); lia.
Qed.

Lemma count_within_perm (l l' : list Z) :
  Permutation l l' -> Samples.count_within lo hi l = Samples.count_within lo hi l'.
Proof.
  induction 1 as [| x l l' _ IH | x y l | l l' l'' _ IH1 _ IH2]; simpl.
  - reflexivity.
  - now rewrite IH.
  - lia.
  - congruence.
Qed.

Lemma count_within_none (l : list Z) :
  Forall (fun x => Samples.within lo hi x = false) l ->
  Samples.count_within lo hi l = O.
Proof.
  induction 1 as [| x l Hx _ IH]; simpl; [reflexivity |]. now rewrite Hx, IH.
Qed.

(** In a sorted list, what stands before an entry is at most it and what
    stands after is at least it. *)
Lemma sorted_around (l1 : list Z) (x : Z) (l2 : list Z) :
  StronglySorted (fun a b => is_true (a <=? b)%Z) (l1 ++ x :: l2) ->
  Forall (fun a => (a <= x)%Z) l1 /\ Forall (fun b => (x <= b)%Z) l2.
Proof.
  induction l1 as [| a l1 IH]; simpl; intros Hs.
  - apply StronglySorted_inv in Hs as [_ Hall]. split; [constructor |].
    eapply Forall_impl; [| exact Hall]. intros b Hb. now apply Z.leb_le.
  - apply StronglySorted_inv in Hs as [Hs Hall].
    destruct (IH Hs) as [H1 H2]. split; [| exact H2].
    constructor; [| exact H1].
    rewrite Forall_app in Hall. destruct Hall as [_ Hall].
    apply Forall_inv in Hall. now apply Z.leb_le.
Qed.

(** An entry of a sorted list with fewer entries before it, and fewer
    after it, than there are entries in [[lo, hi]] lies in [[lo, hi]]. *)
Lemma sorted_entry_within (l1 : list Z) (x : Z) (l2 : list Z) :
  StronglySorted (fun a b => is_true (a <=? b)%Z) (l1 ++ x :: l2) ->
  (List.length l1 < Samples.count_within lo hi (l1 ++ x :: l2))%nat ->
  (List.length l2 < Samples.count_within lo hi (l1 ++ x :: l2))%nat ->
  (lo <= x <= hi)%Z.
Proof.
  intros Hs Hbefore Hafter.
  destruct (sorted_around _ _ _ Hs) as [Hl1 Hl2].
  rewrite count_within_app in Hbefore, Hafter. simpl in Hbefore, Hafter.
  destruct (Samples.within lo hi x) eqn:Hx.
  - unfold Samples.within in Hx. apply andb_prop in Hx as [H1 H2].
    apply Z.leb_le in H1, H2. lia.
  - exfalso. unfold Samples.within in Hx. apply andb_false_iff in Hx.
    destruct Hx as [Hlow | Hhigh].
    + apply Z.leb_gt in Hlow.
      assert (Samples.count_within lo hi l1 = O) as Hnone.
      { apply count_within_none. eapply Forall_impl; [| exact Hl1].
        intros a Ha. cbv beta in Ha. unfold Samples.within.
        assert ((lo <=? a)%Z = false) as -> by (apply Z.leb_gt; lia). reflexivity. }
      pose proof (count_within_length l2). lia.
    + apply Z.leb_gt in Hhigh.
      assert (Samples.count_within lo hi l2 = O) as Hnone.
      { apply count_within_none. eapply Forall_impl; [| exact Hl2].
        intros b Hb. cbv beta in Hb. unfold Samples.within.
        assert ((b <=? hi)%Z = false) as -> by (apply Z.leb_gt; lia).
        apply andb_false_r. }
      pose proof (count_within_length l1). lia.
Qed.

(** The same by position. *)
Lemma sorted_nth_within (data : list Z) (i : nat) :
  StronglySorted (fun a b => is_true (a <=? b)%Z) data ->
  (i < List.length data)%nat ->
  (i < Samples.count_within lo hi data)%nat ->
  (List.length data - i - 1 < Samples.count_within lo hi data)%nat ->
  (lo <= nth i data 0 <= hi)%Z.
Proof.
  intros Hs Hi Hbefore Hafter.
  destruct (nth_split data 0%Z Hi) as (l1 & l2 & Hdata & Hlen).
  rewrite Hdata in Hs, Hbefore, Hafter.
  rewrite length_app in Hafter. simpl in Hafter.
  apply (sorted_entry_within l1 _ l2 Hs); lia.
Qed.

End Median.

Lemma sort_facts (vals : list Z) :
  StronglySorted (fun a b => is_true (a <=? b)%Z) (ZSort.sort vals)
  /\ Permutation vals (ZSort.sort vals)
  /\ List.length (ZSort.sort vals) = List.length vals.
Proof.
  split; [| split].
  - apply ZSort.StronglySorted_sort.
    intros a b c Hab Hbc. unfold is_true in *.
    apply Z.leb_le in Hab, Hbc. apply Z.leb_le. lia.
  - apply ZSort.Permuted_sort.
  - symmetry. apply Permutation_length, ZSort.Permuted_sort.
Qed.

(** The median of samples of which more than half lie in [[lo, hi]]. *)
Lemma median_majority_range (lo hi : Z) (vals : list Z) :
  (List.length vals < 2 * Samples.count_within lo hi vals)%nat ->
  exists m : Z, Sensing.median vals = Some m /\ (lo <= m <= hi)%Z.
Proof.
  intros Hmaj.
  destruct (sort_facts vals) as (Hs & Hperm & Hlen).
  pose proof (count_within_perm lo hi _ _ Hperm) as Hcount.
  pose proof (count_within_length lo hi vals) as Hsome.
  unfold Sensing.median. rewrite Hlen.
  destruct (List.length vals) as [| n'] eqn:Hn; [lia |].
  rewrite <- Hn in *. clear Hn n'.
  destruct (Nat.odd (List.length vals)) eqn:Hodd.
  - eexists. split; [reflexivity |].
    apply Nat.odd_spec in Hodd. destruct Hodd as [k Hk].
    assert (Nat.div (List.length vals) 2 = k) as ->
      by (rewrite Hk; symmetry; apply (Nat.div_unique _ 2 k 1); lia).
    apply sorted_nth_within; [exact Hs | lia | lia | lia].
  - eexists. split; [reflexivity |].
    assert (Nat.even (List.length vals) = true) as Heven
      by (rewrite <- Nat.negb_odd, Hodd; reflexivity).
    apply Nat.even_spec in Heven. destruct Heven as [k Hk].
    assert (Nat.div (List.length vals) 2 = k) as ->
      by (rewrite Hk; symmetry; apply (Nat.div_unique _ 2 k 0); lia).
    assert (lo <= nth (k - 1) (ZSort.sort vals) 0 <= hi)%Z as Ha
      by (apply sorted_nth_within; [exact Hs | lia | lia | lia]).
    assert (lo <= nth k (ZSort.sort vals) 0 <= hi)%Z as Hb
      by (apply sorted_nth_within; [exact Hs | lia | lia | lia]).
    Z.to_euclidean_division_equations. lia.
Qed.

(** X2. When more than half of the samples of a pass lie in [[lo, hi]],
    so does their median, wherever the other samples lie (with nine
    samples, up to four spikes are rejected); and the median of an odd
    number of samples is one of them. *)
Theorem median_of_majority (lo hi : Z) (vals : list Z) :
  (List.length vals < 2 * Samples.count_within lo hi vals)%nat ->
  exists m : Z,
    Sensing.median vals = Some m
    /\ (lo <= m <= hi)%Z
    /\ (Nat.odd (List.length vals) = true -> In m vals).
Proof.
  intros Hmaj.
  destruct (median_majority_range lo hi vals Hmaj) as (m & Hm & Hrange).
  exists m. split; [exact Hm |]. split; [exact Hrange |].
  intros Hodd. destruct (sort_facts vals) as (_ & Hperm & Hlen).
  unfold Sensing.median in Hm. rewrite Hlen, Hodd in Hm.
  destruct (List.length vals) as [| n'] eqn:Hn; [discriminate Hm |].
  assert (m = nth (Nat.div (S n') 2) (ZSort.sort vals) 0%Z) as -> by congruence.
  apply (Permutation_in _ (Permutation_sym Hperm)), nth_In.
  rewrite Hlen. apply Nat.div_lt; lia.
Qed.

Lemma median_of_majority_witness :
  (List.length [300; 301; 1023; 299; 0; 302; 300; 1023; 301]%Z
   < 2 * Samples.count_within 299 302 [300; 301; 1023; 299; 0; 302; 300; 1023; 301]%Z)%nat
  /\ exists m : Z,
       Sensing.median [300; 301; 1023; 299; 0; 302; 300; 1023; 301]%Z = Some m
       /\ (299 <= m <= 302)%Z.
Proof.
  assert (List.length [300; 301; 1023; 299; 0; 302; 300; 1023; 301]%Z
          < 2 * Samples.count_within 299 302
                  [300; 301; 1023; 299; 0; 302; 300; 1023; 301]%Z)%nat as Hmaj
    by (vm_compute; lia).
  split; [exact Hmaj |].
  destruct (median_of_majority 299 302 _ Hmaj) as (m & Hm & Hin & _).
  exists m. split; [exact Hm | exact Hin].
Defined.

(** ** The moving-average buffer *)

Lemma append_length (maxlen : nat) (buf : list Z) (x : Z) :
  List.length (Sensing.append maxlen buf x)
  = Nat.min (S (List.length buf)) maxlen.
Proof.
  unfold Sensing.append. rewrite length_skipn, !length_app.
  change (List.length [x]) with 1%nat. lia.
Qed.

(** One [append] on a bounded deque, seen from the end of the stream. *)
Lemma append_feed_step (maxlen : nat) (buf : list Z) (x : Z) (xs : list Z) :
  skipn (List.length (Sensing.append maxlen buf x ++ xs) - maxlen)
        (Sensing.append maxlen buf x ++ xs)
  = skipn (List.length (buf ++ x :: xs) - maxlen) (buf ++ x :: xs).
Proof.
  rewrite length_app, append_length. unfold Sensing.append.
  set (k := (List.length (buf ++ [x]) - maxlen)%nat).
  assert (List.length (buf ++ [x]) = S (List.length buf)) as Hlen
    by (rewrite length_app; simpl; lia).
  assert (skipn k (buf ++ [x]) ++ xs = skipn k ((buf ++ [x]) ++ xs)) as ->.
  { rewrite (skipn_app k (buf ++ [x]) xs).
    replace (k - List.length (buf ++ [x]))%nat with O by (unfold k; lia).
    reflexivity. }
  rewrite skipn_skipn, <- app_assoc. change ([x] ++ xs) with (x :: xs).
  f_equal. rewrite length_app. change (List.length (x :: xs)) with (S (List.length xs)).
  unfold k. rewrite Hlen. lia.
Qed.

(** X3. A bounded deque that is fed a stream of medians holds the last
    [maxlen] entries of what it held followed by the stream, in order, and
    never more than [maxlen] entries.  The moving-average buffer of the
    loop, empty at start-up, therefore holds exactly the last twelve
    medians. *)
Theorem feed_keeps_last (maxlen : nat) (buf xs : list Z) :
  (List.length buf <= maxlen)%nat ->
  Sensing.feed maxlen buf xs
  = skipn (List.length (buf ++ xs) - maxlen) (buf ++ xs)
  /\ (List.length (Sensing.feed maxlen buf xs) <= maxlen)%nat
  /\ Sensing.feed Sensing.AVG_WINDOW [] xs = skipn (List.length xs - 12) xs.
Proof.
  assert (forall ys b, (List.length b <= maxlen)%nat ->
            Sensing.feed maxlen b ys
            = skipn (List.length (b ++ ys) - maxlen) (b ++ ys)) as Hfeed.
  { clear buf xs. unfold Sensing.feed.
    induction ys as [| y ys IH]; intros b Hb; simpl.
    - rewrite app_nil_r.
      now replace (List.length b - maxlen)%nat with O by lia.
    - rewrite IH.
      + apply append_feed_step.
      + rewrite append_length. lia. }
  intros Hbuf. split; [| split].
  - now apply Hfeed.
  - rewrite (Hfeed xs buf Hbuf), length_skipn. lia.
  - clear Hfeed Hbuf. revert xs.
    assert (forall ys b, (List.length b <= 12)%nat ->
              Sensing.feed 12 b ys
              = skipn (List.length (b ++ ys) - 12) (b ++ ys)) as H12.
    { unfold Sensing.feed.
      induction ys as [| y ys IH]; intros b Hb; simpl.
      - rewrite app_nil_r.
        now replace (List.length b - 12)%nat with O by lia.
      - rewrite IH.
        + apply (append_feed_step 12).
        + rewrite append_length. lia. }
    intros xs. apply (H12 xs []). simpl. lia.
Qed.

Lemma feed_keeps_last_witness :
  (List.length [7; 8]%Z <= 3)%nat
  /\ Sensing.feed 3 [7; 8]%Z [9; 10; 11]%Z = [9; 10; 11]%Z.
Proof.
  split; [simpl; lia |].
  destruct (feed_keeps_last 3 [7; 8]%Z [9; 10; 11]%Z ltac:(simpl; lia)) as (H & _).
  exact H.
Defined.

(** ** Smoothing *)

Lemma sum_bounds (lo hi : Z) (buf : list Z) :
  Forall (fun x => (lo <= x <= hi)%Z) buf ->
  (Z.of_nat (List.length buf) * lo <= Sensing.sum buf
   <= Z.of_nat (List.length buf) * hi)%Z.
Proof.
  induction 1 as [| x l Hx _ IH]; [simpl; lia |].
  change (Sensing.sum (x :: l)) with (x + Sensing.sum l)%Z.
  change (List.length (x :: l)) with (S (List.length l)). lia.
Qed.

(** The floor mean of a buffer lies between its smallest and its largest
    entry. *)
Lemma smooth_bounds (lo hi : Z) (buf : list Z) :
  buf <> [] ->
  Forall (fun x => (lo <= x <= hi)%Z) buf ->
  exists a : Z, Sensing.smooth buf = Some a /\ (lo <= a <= hi)%Z.
Proof.
  intros Hne Hall. destruct buf as [| x l]; [now elim Hne |].
  eexists. split; [reflexivity |].
  pose proof (sum_bounds lo hi _ Hall) as [Hlow Hhigh].
  set (n := Z.of_nat (List.length (x :: l))) in *.
  assert (0 < n)%Z as Hn by (unfold n; simpl; lia).
  split.
  - apply Z.div_le_lower_bound; [exact Hn | exact Hlow].
  - apply Z.div_le_upper_bound; [exact Hn | lia].
Qed.

Lemma append_within (lo hi : Z) (maxlen : nat) (buf : list Z) (x : Z) :
  Forall (fun x => (lo <= x <= hi)%Z) buf ->
  (lo <= x <= hi)%Z ->
  Forall (fun x => (lo <= x <= hi)%Z) (Sensing.append maxlen buf x).
Proof.
  intros Hbuf Hx. unfold Sensing.append.
  apply Forall_forall. intros y Hy.
  assert (In y (buf ++ [x])) as Hin.
  { rewrite <- (firstn_skipn (List.length (buf ++ [x]) - maxlen) (buf ++ [x])).
    apply in_or_app. now right. }
  apply in_app_or in Hin as [Hin | [<- | []]]; [| exact Hx].
  rewrite Forall_forall in Hbuf. now apply Hbuf.
Qed.

(** X4. One pass of the soil reading: when the buffer holds readings in
    [[lo, hi]] and more than half of the new samples lie in [[lo, hi]],
    the pass succeeds, the smoothed reading lies in [[lo, hi]], the buffer
    stays within twelve entries and within [[lo, hi]], and the soil
    percentage lies between the percentages of [hi] and of [lo]: spikes in
    a minority of the samples do not carry the percentage outside the band
    of the good readings. *)
Theorem read_soil_rejects_spikes (lo hi : Z) (buf vals : list Z) :
  Forall (fun x => (lo <= x <= hi)%Z) buf ->
  (List.length vals < 2 * Samples.count_within lo hi vals)%nat ->
  exists (buf' : list Z) (adc_smooth : Z) (soil_pct p_hi p_lo : Q),
    Sensing.read_soil buf vals = Some (buf', adc_smooth, soil_pct)
    /\ (lo <= adc_smooth <= hi)%Z
    /\ Forall (fun x => (lo <= x <= hi)%Z) buf'
    /\ (List.length buf' <= 12)%nat
    /\ adc_to_pct hi WET DRY = Some p_hi
    /\ adc_to_pct lo WET DRY = Some p_lo
    /\ p_hi <= soil_pct <= p_lo
    /\ 0 <= soil_pct <= 100.
Proof.
  intros Hbuf Hmaj.
  destruct (median_majority_range lo hi vals Hmaj) as (m & Hm & Hrange).
  pose proof (append_within lo hi Sensing.AVG_WINDOW buf m Hbuf Hrange) as Hbuf'.
  assert (Sensing.append Sensing.AVG_WINDOW buf m <> []) as Hne.
  { intros Hnil. apply (f_equal (@List.length Z)) in Hnil.
    rewrite append_length in Hnil. simpl in Hnil. unfold Sensing.AVG_WINDOW in Hnil.
    lia. }
  destruct (smooth_bounds lo hi _ Hne Hbuf') as (a & Ha & Harange).
  assert (WET < DRY)%Z as Hcal by (unfold WET, DRY; lia).
  exists (Sensing.append Sensing.AVG_WINDOW buf m), a,
         (round1 (Design.pct WET DRY a)),
         (round1 (Design.pct WET DRY hi)), (round1 (Design.pct WET DRY lo)).
  split_and!.
  - unfold Sensing.read_soil. rewrite Hm. cbn [mbind option_bind].
    rewrite Ha. cbn [mbind option_bind].
    now rewrite (adc_to_pct_value WET DRY Hcal).
  - apply Harange.
  - apply Harange.
  - exact Hbuf'.
  - rewrite append_length. unfold Sensing.AVG_WINDOW. lia.
  - now apply adc_to_pct_value.
  - now apply adc_to_pct_value.
  - apply round1_mono, raw_pct_antitone; [exact Hcal | apply Harange].
  - apply round1_mono, raw_pct_antitone; [exact Hcal | apply Harange].
  - now apply rounded_pct_range.
  - now apply rounded_pct_range.
Qed.

Lemma read_soil_rejects_spikes_witness :
  Forall (fun x => (299 <= x <= 302)%Z) [300; 301]%Z
  /\ (List.length [300; 301; 1023; 299; 0; 302; 300; 1023; 301]%Z
      < 2 * Samples.count_within 299 302
              [300; 301; 1023; 299; 0; 302; 300; 1023; 301]%Z)%nat
  /\ exists (b : list Z) (a : Z) (p : Q),
       Sensing.read_soil [300; 301]%Z [300; 301; 1023; 299; 0; 302; 300; 1023; 301]%Z
       = Some (b, a, p)
       /\ (299 <= a <= 302)%Z.
Proof.
  assert (Forall (fun x => (299 <= x <= 302)%Z) [300; 301]%Z) as Hbuf
    by (repeat constructor; lia).
  assert (List.length [300; 301; 1023; 299; 0; 302; 300; 1023; 301]%Z
          < 2 * Samples.count_within 299 302
                  [300; 301; 1023; 299; 0; 302; 300; 1023; 301]%Z)%nat as Hmaj
    by (vm_compute; lia).
  split; [exact Hbuf |]. split; [exact Hmaj |].
  destruct (read_soil_rejects_spikes 299 302 _ _ Hbuf Hmaj)
    as (b & a & p & _ & _ & Hread & Ha & _).
  exists b, a, p. split; [exact Hread | exact Ha].
Defined.

(** ** More on the actuator *)

(** A property of the state kept by every iteration that passes a test
    holds before the step that ends a stretch of such iterations. *)
Lemma through_steps (cfg : Config) (keep : Step -> bool) (P : State -> Prop) :
  (forall s i, P s -> keep (step cfg s i) = true -> P (after (step cfg s i))) ->
  forall (mid : list Step) (s : State) (ins : list Input) (k : Step) (post : list Step),
    P s ->
    run cfg s ins = mid ++ k :: post ->
    forallb keep mid = true ->
    P (before k).
Proof.
  intros Hkeep. induction mid as [| st mid IH]; simpl; intros s ins k post HP Hrun Hmid.
  - apply run_cons_inv in Hrun as (i & rest & _ & -> & _). exact HP.
  - apply run_cons_inv in Hrun as (i & rest & _ & -> & Hrest).
    apply andb_prop in Hmid as [Hst Hmid].
    symmetry in Hrest. eapply IH; [| exact Hrest | exact Hmid].
    now apply Hkeep.
Qed.

(** The clocks of the two schedules, the counter and the calls of the
    relay after one iteration. *)
Lemma tick_bookkeeping (cfg : Config) (s : State) (i : Input) :
  last_report_time (after (step cfg s i))
  = (if report_due (now i) s then now i else last_report_time s)
  /\ last_control_check (after (step cfg s i))
     = (if poll_due (now i) s then now i else last_control_check s)
  /\ run_sec_this_hour (after (step cfg s i))
     = (if pump_on (after (step cfg s i))
        then Z.min HOURLY_BUCKET (run_sec_this_hour (update_hour_window (now i) s) + 1)
        else run_sec_this_hour (update_hour_window (now i) s))
  /\ out_report (out (step cfg s i))
     = (if report_due (now i) s
        then Some (send_sensor_data (temp i) (hum i) (soil i)
                     (pump_on (after (step cfg s i)))
                     (out_reason (out (step cfg s i))))
        else None)
  /\ out_relay (out (step cfg s i))
     = (if turned_on (step cfg s i) then [true]
        else if turned_off (step cfg s i) then [false] else []).
Proof.
  pose proof (update_hour_window_pump (now i) s) as (Hp & Hc & Hr).
  apply pump_state_same in Hp as (Hon & _).
  unfold turned_on, turned_off, report_due, poll_due.
  cbn [before after out step].
  unfold tick.
  destruct (manual_override_check _ _ _) as [e c].
  destruct (decision _ _ _ _ e c) as [fd r].
  cbn [fst snd pump_on last_report_time last_control_check run_sec_this_hour
       out_report out_relay out_reason].
  unfold report_due, poll_due, count_run.
  set (s1 := update_hour_window (now i) s) in *.
  destruct (turns_on (now i) fd s1) eqn:Eon.
  - rewrite no_off_right_after_on.
    cbn [switch_on pump_on last_report_time last_control_check run_sec_this_hour].
    assert (pump_on s = false) as ->.
    { unfold turns_on in Eon. rewrite Hon in Eon.
      destruct (pump_on s); [discriminate Eon | reflexivity]. }
    rewrite Hr, Hc. split_and!; reflexivity.
  - destruct (turns_off (now i) e c s1) eqn:Eoff.
    + cbn [switch_off pump_on last_report_time last_control_check run_sec_this_hour].
      assert (pump_on s = true) as ->.
      { destruct (pump_on s) eqn:E; [reflexivity |].
        rewrite (no_off_when_off _ _ _ s1) in Eoff by congruence. discriminate. }
      rewrite Hr, Hc. split_and!; reflexivity.
    + rewrite Hr, Hc, Hon. destruct (pump_on s); split_and!; reflexivity.
Qed.

(** While the pump has been on since its switch-on, the switch-off test is
    the minimum-on test alone: the burst is over before the minimum is. *)
Lemma turns_off_while_on (t : Q) (e c : bool) (s : State) :
  pump_on s = true ->
  on_start s = last_change s ->
  turns_off t e c s = Qle_bool MIN_ON_SEC (t - last_change s).
Proof.
  intros Hon Hsame. unfold turns_off, is_safety_cut_off, is_pulse_end.
  rewrite Hon, Hsame. simpl.
  destruct (Qle_bool MIN_ON_SEC (t - last_change s)) eqn:Hmin;
    [| apply andb_false_r].
  apply Qle_bool_iff in Hmin.
  assert (Qle_bool BURST_ON_SEC (t - last_change s) = true) as ->
    by (apply Qle_bool_iff; unfold BURST_ON_SEC, MIN_ON_SEC in *; lra).
  now rewrite orb_true_r.
Qed.

(** X5. In every run of the loop the pump, once switched on, stays on as
    long as the iterations come less than MIN_ON_SEC after the switch-on
    and is switched off by the first iteration that comes later, whatever
    the decision, the soil and the manual state are: every pulse lasts
    MIN_ON_SEC up to one loop period, and BURST_ON_SEC (4 s, below the
    minimum of 6 s) never ends one.  The switch-off starts a rest of
    REST_SEC. *)
Theorem pulse_lasts_min_on (cfg : Config) (s0 : State) (ins : list Input)
    (pre : list Step) (j : Step) (mid : list Step) (k : Step) (post : list Step) :
  run cfg s0 ins = pre ++ j :: mid ++ k :: post ->
  turned_on j = true ->
  forallb (fun st => negb (turned_off st)) mid = true ->
  (now (input k) - now (input j) < MIN_ON_SEC ->
   pump_on (after k) = true /\ out_off (out k) = None)
  /\ (MIN_ON_SEC <= now (input k) - now (input j) ->
      turned_off k = true
      /\ last_change (after k) = now (input k)
      /\ rest_until (after k) = now (input k) + REST_SEC
      /\ exists why, out_off (out k) = Some why).
Proof.
  intros Hrun Hj Hmid.
  destruct (on_since _ _ _ _ _ _ _ _ Hrun Hj Hmid) as (Hon & Hc & Ho).
  rewrite app_comm_cons, app_assoc in Hrun.
  destruct (run_step _ _ _ _ _ _ Hrun) as (i & rest & Hstep & _).
  assert (input k = i) as Hi by (rewrite Hstep; reflexivity).
  destruct (step_when_on cfg (before k) i Hon) as (Hp & Hoff).
  cbv zeta in Hp, Hoff. rewrite <- Hstep in Hp, Hoff.
  rewrite turns_off_while_on in Hp, Hoff by congruence.
  rewrite Hc, <- Hi in Hp, Hoff.
  split.
  - intros Hshort. apply Qle_bool_false in Hshort. rewrite Hshort in Hp, Hoff.
    split; [exact Hp | exact Hoff].
  - intros Hlong. apply Qle_bool_iff in Hlong. rewrite Hlong in Hp, Hoff.
    simpl in Hp.
    assert (pump_state (after k)
            = (false, now i, on_start (before k), now i + REST_SEC)) as Hst.
    { destruct (step_moves cfg (before k) i) as [Hsame | Hwas _ _ | _ _ Hst].
      - rewrite <- Hstep in Hsame.
        apply pump_state_same in Hsame as (Hsame & _). congruence.
      - congruence.
      - now rewrite <- Hstep in Hst. }
    apply pump_state_eq in Hst as (_ & Hchange & _ & Hrest).
    rewrite Hi. split_and!.
    + unfold turned_off. now rewrite Hon, Hp.
    + exact Hchange.
    + exact Hrest.
    + eexists. exact Hoff.
Qed.

Lemma pulse_lasts_min_on_witness :
  let tr := run loaded boot dry_offline in
  let idle := step loaded boot (reading 0 0 RequestException 0) in
  turned_on (nth 1 tr idle) = true
  /\ 8 - (16 # 5) < MIN_ON_SEC
  /\ pump_on (after (nth 4 tr idle)) = true
  /\ MIN_ON_SEC <= (48 # 5) - (16 # 5)
  /\ turned_off (nth 5 tr idle) = true.
Proof.
  intros tr idle.
  destruct (pulse_lasts_min_on loaded boot dry_offline
              (firstn 1 tr) (nth 1 tr idle) (firstn 2 (skipn 2 tr)) (nth 4 tr idle)
              (skipn 5 tr) eq_refl eq_refl eq_refl) as (Hshort & _).
  destruct (pulse_lasts_min_on loaded boot dry_offline
              (firstn 1 tr) (nth 1 tr idle) (firstn 3 (skipn 2 tr)) (nth 5 tr idle)
              (skipn 6 tr) eq_refl eq_refl eq_refl) as (_ & Hlong).
  assert (8 - (16 # 5) < MIN_ON_SEC) as H1 by (unfold MIN_ON_SEC; lra).
  assert (MIN_ON_SEC <= (48 # 5) - (16 # 5)) as H2 by (unfold MIN_ON_SEC; lra).
  split; [reflexivity |]. split; [exact H1 |].
  split; [exact (proj1 (Hshort H1)) |]. split; [exact H2 |].
  exact (proj1 (Hlong H2)).
Defined.

(** The cap of the hour in whole seconds. *)
Lemma below_cap (r : Z) : (r < 480)%Z <-> inject_Z r / 60 < MAX_MIN_PER_HOUR.
Proof.
  unfold MAX_MIN_PER_HOUR. split; intros H.
  - apply Qlt_shift_div_r; [reflexivity |].
    change (8 * 60) with (inject_Z 480). now rewrite <- Zlt_Qlt.
  - rewrite Zlt_Qlt. change (inject_Z 480) with (8 * 60).
    assert (inject_Z r == inject_Z r / 60 * 60) as -> by (field; discriminate).
    apply Qmult_lt_compat_r; [reflexivity | exact H].
Qed.

(** The switch-on of an idle pump, as a condition on the state before. *)
Lemma idle_pump_switches_on (cfg : Config) (s : State) (i : Input) :
  pump_on s = false ->
  (pump_on (after (step cfg s i)) = true <->
   out_decision (out (step cfg s i)) = true
   /\ rest_until s <= now i
   /\ MIN_OFF_SEC <= now i - last_change s
   /\ (run_sec_this_hour (update_hour_window (now i) s) < 480)%Z)
  /\ (pump_on (after (step cfg s i)) = true ->
      out_relay (out (step cfg s i)) = [true]
      /\ on_start (after (step cfg s i)) = now i).
Proof.
  intros Hoff.
  destruct (update_hour_window_pump (now i) s) as (Hp & _).
  apply pump_state_same in Hp as (Hon1 & Hc1 & _ & Hr1).
  split.
  - split.
    + intros Hon.
      destruct (step_moves cfg s i) as [Hsame | _ Hturn _ | Hwas _ _].
      * apply pump_state_same in Hsame as (Hsame & _). congruence.
      * apply turns_on_guards in Hturn as (Hd & Hrest & Hmin & Hcap).
        apply below_cap in Hcap. auto.
      * congruence.
    + intros (Hd & Hrest & Hmin & Hcap).
      pose proof (tick_pump_state cfg s i) as Hst.
      pose proof (tick_out cfg s i) as (_ & _ & Hdec & _).
      cbv zeta in Hst, Hdec. rewrite Hoff in Hst.
      simpl out in Hd. rewrite Hdec in Hd. rewrite Hd in Hst.
      assert (turns_on (now i) true (update_hour_window (now i) s) = true) as Hturn.
      { unfold turns_on, Qlt_bool. rewrite Hon1, Hc1, Hr1, Hoff. simpl.
        apply Qle_bool_iff in Hrest, Hmin. rewrite Hrest, Hmin. simpl.
        apply below_cap in Hcap. apply negb_true_iff, Qle_bool_false. exact Hcap. }
      rewrite Hturn in Hst. now apply pump_state_eq in Hst as (Hst & _).
  - intros Hon. split.
    + destruct (tick_bookkeeping cfg s i) as (_ & _ & _ & _ & Hrelay).
      rewrite Hrelay. unfold turned_on. rewrite Hon.
      change (before (step cfg s i)) with s. now rewrite Hoff.
    + destruct (step_moves cfg s i) as [Hsame | _ _ Hst | Hwas _ _].
      * apply pump_state_same in Hsame as (Hsame & _). congruence.
      * now apply pump_state_eq in Hst as (_ & _ & -> & _).
      * congruence.
Qed.

(** C3 fails on the code in its cap. The cap lets an idle pump be switched
    on as long as the counter of the hour reads less than 480, whatever
    time the pump has run in the hour; the other guards are those of
    [switch_on_guards].  In the dry, offline run with an iteration every
    1.6 s the pump runs 6.4 s out of every 12.8 s: the iteration at 963.2,
    in the hour window that began at 0, comes after 480 s of run time,
    which is not below MAX_MIN_PER_HOUR minutes; it finds the counter at
    300 and switches the pump on. *)
Theorem switch_on_cap_counts_iterations (cfg : Config) (s : State) (i : Input) :
  (pump_on s = false ->
   out_decision (out (step cfg s i)) = true ->
   rest_until s <= now i ->
   MIN_OFF_SEC <= now i - last_change s ->
   (run_sec_this_hour (update_hour_window (now i) s) < 480)%Z ->
   pump_on (after (step cfg s i)) = true)
  /\ (let tr := run loaded boot dry_long in
      Design.run_time 0 (firstn 601 tr) == 480
      /\ ~ Design.run_time 0 (firstn 601 tr) < MAX_MIN_PER_HOUR * 60
      /\ map (fun st => (now (input st), hour_window_start (before st),
                         hour_window_start (after st),
                         run_sec_this_hour (before st), turned_on st))
             (skipn 601 tr)
         = [ (4816 # 5, 0, 0, 300%Z, true) ]).
Proof.
  split.
  - intros Hoff Hd Hrest Hmin Hcap.
    apply (proj1 (idle_pump_switches_on cfg s i Hoff)). auto.
  - intros tr.
    assert (Design.run_time 0 (firstn 601 tr) == 480) as Htime
      by (vm_compute; reflexivity).
    split_and!.
    + exact Htime.
    + rewrite Htime. unfold MAX_MIN_PER_HOUR. intros H. discriminate H.
    + vm_compute. reflexivity.
Qed.

(** X6. An iteration that starts with the pump off switches it on if and
    only if the decision is "on", no rest period is pending, MIN_OFF_SEC
    have elapsed since the last change and the counter of the hour, after
    the window update, is below 480 (MAX_MIN_PER_HOUR minutes); it then
    drives the relay once, with [True]. *)
Theorem switch_on_iff_guards (cfg : Config) (s : State) (i : Input) :
  pump_on s = false ->
  (pump_on (after (step cfg s i)) = true <->
   out_decision (out (step cfg s i)) = true
   /\ rest_until s <= now i
   /\ MIN_OFF_SEC <= now i - last_change s
   /\ (run_sec_this_hour (update_hour_window (now i) s) < 480)%Z)
  /\ (pump_on (after (step cfg s i)) = true ->
      out_relay (out (step cfg s i)) = [true]
      /\ on_start (after (step cfg s i)) = now i).
Proof.
  intros Hoff. destruct (idle_pump_switches_on cfg s i Hoff) as (Hiff & Hrelay).
  split; [exact Hiff | exact Hrelay].
Qed.

Lemma switch_on_iff_guards_witness :
  pump_on boot = false
  /\ pump_on (after (step loaded boot (reading (16 # 5) (101 # 10) RequestException 0)))
     = true
  /\ rest_until boot <= 16 # 5.
Proof.
  destruct (switch_on_iff_guards loaded boot
              (reading (16 # 5) (101 # 10) RequestException 0) eq_refl)
    as ((Hguards & _) & _).
  split; [reflexivity |]. split; [reflexivity |].
  exact (proj1 (proj2 (Hguards eq_refl))).
Defined.

(** X7. Emergency irrigation: an iteration in automatic mode on soil at or
    below EMERGENCY_ON_PCT, with the pump off, no rest pending,
    MIN_OFF_SEC elapsed and fewer than 480 counted seconds in the hour,
    switches the pump on whatever the score and the threshold are, the
    reason logged being AI or EMERGENCY. *)
Theorem emergency_irrigation_fires (cfg : Config) (s : State) (i : Input) :
  pump_on s = false ->
  fst (out_manual (out (step cfg s i))) = false ->
  soil i <= EMERGENCY_ON_PCT ->
  rest_until s <= now i ->
  MIN_OFF_SEC <= now i - last_change s ->
  (run_sec_this_hour s < 480)%Z ->
  pump_on (after (step cfg s i)) = true
  /\ out_decision (out (step cfg s i)) = true
  /\ (out_reason (out (step cfg s i)) = "AI"%string
      \/ out_reason (out (step cfg s i)) = "EMERGENCY"%string).
Proof.
  intros Hoff Hauto Hdry Hrest Hmin Hcount.
  pose proof (tick_out cfg s i) as (Hm & _ & Hd & Hr). cbv zeta in Hm, Hd, Hr.
  simpl out in Hauto |- *. rewrite <- Hm in Hd, Hr. rewrite Hauto in Hd, Hr.
  unfold decision in Hd, Hr. simpl in Hd, Hr.
  apply Qle_bool_iff in Hdry. rewrite Hdry in Hd, Hr.
  rewrite orb_true_r in Hd.
  assert (pump_on (after (step cfg s i)) = true) as Hon.
  { apply (idle_pump_switches_on cfg s i Hoff). simpl out.
    split; [exact Hd |]. split; [exact Hrest |]. split; [exact Hmin |].
    unfold update_hour_window.
    destruct (Qle_bool (inject_Z HOURLY_BUCKET) (now i - hour_window_start s));
      cbn [run_sec_this_hour]; lia. }
  split; [exact Hon |]. split; [exact Hd |].
  rewrite Hr. destruct (Qle_bool (THRESH cfg) _); auto.
Qed.

Lemma emergency_irrigation_fires_witness :
  soil (reading (16 # 5) (101 # 10) RequestException 0) <= EMERGENCY_ON_PCT
  /\ pump_on (after (step loaded boot (reading (16 # 5) (101 # 10) RequestException 0)))
     = true
  /\ out_reason (out (step loaded boot (reading (16 # 5) (101 # 10) RequestException 0)))
     = "EMERGENCY"%string.
Proof.
  assert (soil (reading (16 # 5) (101 # 10) RequestException 0) <= EMERGENCY_ON_PCT)
    as Hdry by (unfold EMERGENCY_ON_PCT; simpl; lra).
  assert (rest_until boot <= now (reading (16 # 5) (101 # 10) RequestException 0))
    as Hrest by (simpl; lra).
  assert (MIN_OFF_SEC
          <= now (reading (16 # 5) (101 # 10) RequestException 0) - last_change boot)
    as Hmin by (unfold MIN_OFF_SEC; simpl; lra).
  destruct (emergency_irrigation_fires loaded boot
              (reading (16 # 5) (101 # 10) RequestException 0)
              eq_refl eq_refl Hdry Hrest Hmin ltac:(simpl; lia)) as (Hon & _).
  split; [exact Hdry |]. split; [exact Hon | reflexivity].
Defined.

(** ** The relay *)

(** X8. In every run of the loop that starts with the relay pin at the
    level of the pump state (low and off at start-up), the pin is high
    after an iteration exactly when the pump is on after it; an iteration
    drives the relay at most once, and only when the pump state
    changes. *)
Theorem pin_follows_pump (cfg : Config) (s0 : State) (ins : list Input)
    (pre : list Step) (k : Step) (post : list Step) (pin : bool) :
  pin = pump_on s0 ->
  run cfg s0 ins = pre ++ k :: post ->
  Sensing.pin_after pin (pre ++ [k]) = pump_on (after k)
  /\ (List.length (out_relay (out k)) <= 1)%nat
  /\ (out_relay (out k) <> [] -> pump_on (after k) <> pump_on (before k)).
Proof.
  intros Hpin Hrun.
  assert (forall s i p, p = pump_on s ->
            Sensing.drive p (out_relay (out (step cfg s i)))
            = pump_on (after (step cfg s i))) as Hdrive.
  { intros s i p ->.
    destruct (tick_bookkeeping cfg s i) as (_ & _ & _ & _ & ->).
    unfold turned_on, turned_off. change (before (step cfg s i)) with s.
    destruct (pump_on s), (pump_on (after (step cfg s i))); reflexivity. }
  split; [| split].
  - revert s0 ins pin Hpin Hrun.
    induction pre as [| st pre IH]; intros s0 ins pin Hpin Hrun; simpl in Hrun |- *.
    + apply run_cons_inv in Hrun as (i & rest & _ & -> & _). now apply Hdrive.
    + apply run_cons_inv in Hrun as (i & rest & _ & -> & Hrest).
      symmetry in Hrest. apply (IH _ _ _ (Hdrive s0 i pin Hpin) Hrest).
  - destruct (run_step _ _ _ _ _ _ Hrun) as (i & _ & Hk & _).
    rewrite Hk.
    destruct (tick_bookkeeping cfg (before k) i) as (_ & _ & _ & _ & ->).
    destruct (turned_on _); [simpl; lia |]. destruct (turned_off _); simpl; lia.
  - destruct (run_step _ _ _ _ _ _ Hrun) as (i & _ & Hk & _).
    rewrite Hk.
    destruct (tick_bookkeeping cfg (before k) i) as (_ & _ & _ & _ & ->).
    unfold turned_on, turned_off. change (before (step cfg (before k) i)) with (before k).
    destruct (pump_on (before k)), (pump_on (after (step cfg (before k) i)));
      simpl; congruence.
Qed.

Lemma pin_follows_pump_witness :
  let tr := run loaded boot dry_offline in
  let idle := step loaded boot (reading 0 0 RequestException 0) in
  Sensing.initial_pin = pump_on boot
  /\ Sensing.pin_after Sensing.initial_pin (firstn 2 tr) = true
  /\ Sensing.pin_after Sensing.initial_pin (firstn 6 tr) = false.
Proof.
  intros tr idle.
  destruct (pin_follows_pump loaded boot dry_offline (firstn 1 tr) (nth 1 tr idle)
              (skipn 2 tr) Sensing.initial_pin eq_refl eq_refl) as (Hon & _).
  destruct (pin_follows_pump loaded boot dry_offline (firstn 5 tr) (nth 5 tr idle)
              (skipn 6 tr) Sensing.initial_pin eq_refl eq_refl) as (Hoff & _).
  split; [reflexivity |]. split; [exact Hon | exact Hoff].
Defined.

(** ** The counter of the hour *)

(** X9. In every run of the loop that starts with the counter of the hour
    between 0 and HOURLY_BUCKET, the counter stays between 0 and
    HOURLY_BUCKET after every iteration, and an iteration raises it by at
    most one. *)
Theorem run_counter_bounded (cfg : Config) (s0 : State) (ins : list Input)
    (pre : list Step) (k : Step) (post : list Step) :
  (0 <= run_sec_this_hour s0 <= HOURLY_BUCKET)%Z ->
  run cfg s0 ins = pre ++ k :: post ->
  (0 <= run_sec_this_hour (before k) <= HOURLY_BUCKET)%Z
  /\ (0 <= run_sec_this_hour (after k) <= HOURLY_BUCKET)%Z
  /\ (run_sec_this_hour (after k) <= run_sec_this_hour (before k) + 1)%Z.
Proof.
  intros Hstart Hrun.
  assert (forall s i, (0 <= run_sec_this_hour s <= HOURLY_BUCKET)%Z ->
            (0 <= run_sec_this_hour (after (step cfg s i)) <= HOURLY_BUCKET)%Z
            /\ (run_sec_this_hour (after (step cfg s i))
                <= run_sec_this_hour s + 1)%Z) as Hstep.
  { intros s i Hs.
    destruct (tick_bookkeeping cfg s i) as (_ & _ & -> & _).
    assert (0 <= run_sec_this_hour (update_hour_window (now i) s)
            <= run_sec_this_hour s)%Z as Hwin.
    { unfold update_hour_window.
      destruct (Qle_bool (inject_Z HOURLY_BUCKET) (now i - hour_window_start s));
        cbn [run_sec_this_hour]; lia. }
    unfold HOURLY_BUCKET in *.
    destruct (pump_on (after (step cfg s i))); lia. }
  assert (0 <= run_sec_this_hour (before k) <= HOURLY_BUCKET)%Z as Hbefore.
  { revert s0 ins Hstart Hrun.
    induction pre as [| st pre IH]; intros s0 ins Hstart Hrun; simpl in Hrun.
    - apply run_cons_inv in Hrun as (i & rest & _ & -> & _). exact Hstart.
    - apply run_cons_inv in Hrun as (i & rest & _ & -> & Hrest).
      symmetry in Hrest. apply (IH _ _ (proj1 (Hstep s0 i Hstart)) Hrest). }
  destruct (run_step _ _ _ _ _ _ Hrun) as (i & _ & Hk & _).
  split; [exact Hbefore |].
  destruct (Hstep (before k) i Hbefore) as (H1 & H2).
  rewrite <- Hk in H1, H2. split; assumption.
Qed.

Lemma run_counter_bounded_witness :
  let tr := run loaded boot dry_offline in
  let idle := step loaded boot (reading 0 0 RequestException 0) in
  (0 <= run_sec_this_hour boot <= HOURLY_BUCKET)%Z
  /\ (0 <= run_sec_this_hour (after (nth 9 tr idle)) <= HOURLY_BUCKET)%Z.
Proof.
  intros tr idle.
  assert (0 <= run_sec_this_hour boot <= HOURLY_BUCKET)%Z as Hboot
    by (unfold HOURLY_BUCKET; simpl; lia).
  destruct (run_counter_bounded loaded boot dry_offline (firstn 9 tr) (nth 9 tr idle)
              [] Hboot eq_refl) as (_ & Hafter & _).
  split; [exact Hboot | exact Hafter].
Defined.

(** ** The two schedules *)

(** X10. In every run of the loop two consecutive reports to the server
    are at least REPORT_INTERVAL apart, and a report carries, as
    irrigation_status, the state of the pump after the iteration that
    sends it, and the soil percentage of that iteration. *)
Theorem reports_are_spaced (cfg : Config) (s0 : State) (ins : list Input)
    (pre : list Step) (j : Step) (mid : list Step) (k : Step) (post : list Step) :
  run cfg s0 ins = pre ++ j :: mid ++ k :: post ->
  Schedule.reported j = true ->
  forallb (fun st => negb (Schedule.reported st)) mid = true ->
  Schedule.reported k = true ->
  REPORT_INTERVAL <= now (input k) - now (input j)
  /\ exists payload,
       out_report (out k) = Some payload
       /\ Backend.field "irrigation_status" payload = Some (JBool (pump_on (after k)))
       /\ Backend.field "soil_moisture" payload = Some (JNum (soil (input k))).
Proof.
  intros Hrun Hj Hmid Hk.
  assert (forall s i, Schedule.reported (step cfg s i) = report_due (now i) s) as Hrep.
  { intros s i. unfold Schedule.reported.
    destruct (tick_bookkeeping cfg s i) as (_ & _ & _ & -> & _).
    now destruct (report_due (now i) s). }
  assert (Hrun' := Hrun).
  apply run_suffix in Hrun as (s' & ins' & Hrun). symmetry in Hrun.
  apply run_cons_inv in Hrun as (ij & restj & _ & Hjstep & Hrun).
  assert (last_report_time (after j) = now (input j)) as Hlast.
  { rewrite Hjstep in Hj |- *. rewrite Hrep in Hj.
    destruct (tick_bookkeeping cfg s' ij) as (-> & _). now rewrite Hj. }
  symmetry in Hrun.
  pose proof (through_steps cfg (fun st => negb (Schedule.reported st))
                (fun s => last_report_time s = now (input j))) as Hthrough.
  assert (last_report_time (before k) = now (input j)) as Hbefore.
  { apply (Hthrough) with (mid := mid) (s := after j) (ins := restj) (post := post);
      [| exact Hlast | exact Hrun | exact Hmid].
    intros s i Hs Hno. apply negb_true_iff in Hno. rewrite Hrep in Hno.
    destruct (tick_bookkeeping cfg s i) as (-> & _). now rewrite Hno. }
  rewrite app_comm_cons, app_assoc in Hrun'.
  destruct (run_step _ _ _ _ _ _ Hrun') as (i & _ & Hkstep & _).
  assert (input k = i) as Hi by (rewrite Hkstep; reflexivity).
  rewrite Hkstep, Hrep in Hk.
  split.
  - unfold report_due in Hk. apply Qle_bool_iff in Hk.
    now rewrite Hbefore, <- Hi in Hk.
  - destruct (tick_bookkeeping cfg (before k) i) as (_ & _ & _ & Hout & _).
    rewrite Hk, <- Hkstep in Hout. eexists. split; [exact Hout |].
    rewrite Hi. split; reflexivity.
Qed.

Lemma reports_are_spaced_witness :
  let tr := run loaded boot dry_offline in
  let idle := step loaded boot (reading 0 0 RequestException 0) in
  Schedule.reported (nth 3 tr idle) = true
  /\ Schedule.reported (nth 7 tr idle) = true
  /\ REPORT_INTERVAL <= (64 # 5) - (32 # 5).
Proof.
  intros tr idle.
  destruct (reports_are_spaced loaded boot dry_offline
              (firstn 3 tr) (nth 3 tr idle) (firstn 3 (skipn 4 tr)) (nth 7 tr idle)
              (skipn 8 tr) eq_refl eq_refl eq_refl eq_refl) as (Hgap & _).
  split; [reflexivity |]. split; [reflexivity | exact Hgap].
Defined.

(** X11. In every run of the loop two consecutive polls of the
    manual-control endpoint are at least CONTROL_CHECK_INTERVAL apart, and
    every iteration between them runs in automatic mode, whatever the
    server would answer: it sees manual mode off and its reason is never
    MANUAL. *)
Theorem polls_are_spaced (cfg : Config) (s0 : State) (ins : list Input)
    (pre : list Step) (j : Step) (mid : list Step) (k : Step) (post : list Step) :
  run cfg s0 ins = pre ++ j :: mid ++ k :: post ->
  Schedule.polled j = true ->
  forallb (fun st => negb (Schedule.polled st)) mid = true ->
  Schedule.polled k = true ->
  CONTROL_CHECK_INTERVAL <= now (input k) - now (input j)
  /\ Forall (fun st => out_manual (out st) = (false, false)
                       /\ out_reason (out st) <> "MANUAL"%string) mid.
Proof.
  intros Hrun Hj Hmid Hk.
  assert (Hrun' := Hrun).
  apply run_suffix in Hrun as (s' & ins' & Hrun). symmetry in Hrun.
  apply run_cons_inv in Hrun as (ij & restj & _ & Hjstep & Hrun).
  assert (last_control_check (after j) = now (input j)) as Hlast.
  { rewrite Hjstep in Hj |- *. unfold Schedule.polled in Hj.
    change (before (step cfg s' ij)) with s' in Hj.
    change (input (step cfg s' ij)) with ij in Hj |- *.
    destruct (tick_bookkeeping cfg s' ij) as (_ & -> & _). now rewrite Hj. }
  symmetry in Hrun.
  split.
  - assert (last_control_check (before k) = now (input j)) as Hbefore.
    { apply (through_steps cfg (fun st => negb (Schedule.polled st))
               (fun s => last_control_check s = now (input j)))
        with (mid := mid) (s := after j) (ins := restj) (post := post);
        [| exact Hlast | exact Hrun | exact Hmid].
      intros s i Hs Hno. apply negb_true_iff in Hno. unfold Schedule.polled in Hno.
      change (before (step cfg s i)) with s in Hno.
      change (input (step cfg s i)) with i in Hno.
      destruct (tick_bookkeeping cfg s i) as (_ & -> & _). now rewrite Hno. }
    unfold Schedule.polled, poll_due in Hk. apply Qle_bool_iff in Hk.
    now rewrite Hbefore in Hk.
  - clear Hk Hlast Hrun' Hjstep. revert restj Hrun Hmid. generalize (after j).
    induction mid as [| st mid IH]; intros s restj Hrun Hmid; [constructor |].
    simpl in Hrun, Hmid. apply andb_prop in Hmid as [Hst Hmid].
    apply run_cons_inv in Hrun as (i & rest & _ & -> & Hrest).
    symmetry in Hrest. constructor; [| exact (IH _ _ Hrest Hmid)].
    apply negb_true_iff in Hst. unfold Schedule.polled in Hst.
    change (before (step cfg s i)) with s in Hst.
    change (input (step cfg s i)) with i in Hst.
    pose proof (manual_seen cfg s i) as Hseen. rewrite Hst in Hseen.
    split; [exact Hseen |].
    destruct (tick_out cfg s i) as (Hm & _ & _ & Hr). cbv zeta in Hm, Hr.
    change (snd (tick cfg s i)) with (out (step cfg s i)) in Hm, Hr.
    rewrite Hr, <- Hm, Hseen. unfold decision. simpl.
    destruct (Qle_bool (THRESH cfg) _); [discriminate |].
    destruct (Qle_bool (soil i) EMERGENCY_ON_PCT); discriminate.
Qed.

Lemma polls_are_spaced_witness :
  let tr := run loaded boot dry_manual_off in
  let idle := step loaded boot (reading 0 0 RequestException 0) in
  Schedule.polled (nth 1 tr idle) = true
  /\ Schedule.polled (nth 3 tr idle) = true
  /\ CONTROL_CHECK_INTERVAL <= (32 # 5) - (16 # 5)
  /\ out_manual (out (nth 2 tr idle)) = (false, false).
Proof.
  intros tr idle.
  destruct (polls_are_spaced loaded boot dry_manual_off
              (firstn 1 tr) (nth 1 tr idle) [nth 2 tr idle] (nth 3 tr idle)
              (skipn 4 tr) eq_refl eq_refl eq_refl eq_refl) as (Hgap & Hmid).
  split; [reflexivity |]. split; [reflexivity |]. split; [exact Hgap |].
  apply Forall_inv in Hmid. exact (proj1 Hmid).
Defined.

(** ** The air sensor in the report *)

(** X12. The air readings reach the report together or not at all: when
    the sensor gives both a temperature and a humidity the report carries
    them; when the read raises, or either value is missing, the report
    carries 25.0 and 50.0, whatever the other value was. *)
Theorem air_readings_together {lax : Backend.Lax} (o : Sensing.dht_outcome) (soil_pct : Q)
    (status : bool) (tag : string) :
  let '(t, h) := Sensing.read_dht_safe o in
  (t = None <-> h = None)
  /\ exists d : Backend.SensorDataBase,
       Backend.parse_SensorDataCreate (send_sensor_data t h soil_pct status tag) = Some d
       /\ (Backend.temperature d, Backend.humidity d)
          = match o with
            | Sensing.DhtValues (Some t') (Some h') => (t', h')
            | _ => (25, 50)
            end.
Proof.
  destruct o as [| [t' |] [h' |]]; simpl.
  all: split; [tauto || (split; discriminate) |].
  all: eexists; split; reflexivity.
Qed.

(** ** The manual-control state between frontend, server and controller *)

Section LinkFacts.

Import Backend.

Context {lax : Lax}.

Lemma last_update_acc (reqs : list (Z * request)) (acc : option (bool * bool)) :
  Link.last_update acc reqs
  = match Link.last_update None reqs with Some f => Some f | None => acc end.
Proof.
  revert acc. induction reqs as [| [clock r] reqs IH]; intros acc; [now destruct acc |].
  destruct r as [body | | body]; simpl; try apply IH.
  destruct (parse_ManualControlUpdate body) as [u |]; [| apply IH].
  rewrite (IH (Some _)). now destruct (Link.last_update None reqs).
Qed.

Lemma get_manual_control_flags (clock : Z) (db : Db) :
  Link.keyed db ->
  Link.keyed (fst (get_manual_control clock db))
  /\ Link.flags (fst (get_manual_control clock db)) = Link.flags db
  /\ (manual_enabled (snd (get_manual_control clock db)),
      pump_command (snd (get_manual_control clock db))) = Link.flags db
  /\ id (snd (get_manual_control clock db)) = 1%Z
  /\ sensor_data (fst (get_manual_control clock db)) = sensor_data db.
Proof.
  intros Hkey. unfold get_manual_control, Link.flags, Link.keyed in *.
  destruct (manual_control db !! 1%Z) as [row |] eqn:Hrow; cbn [fst snd].
  - rewrite Hrow. split_and!; auto.
  - cbn [manual_control sensor_data manual_enabled pump_command id].
    rewrite lookup_insert_eq. split_and!; auto.
    now intros row [= <-].
Qed.

Lemma update_manual_control_flags (clock : Z) (db : Db) (u : ManualControlUpdate) :
  Link.keyed db ->
  Link.keyed (fst (update_manual_control clock db u))
  /\ Link.flags (fst (update_manual_control clock db u))
     = (upd_manual_enabled u, upd_pump_command u)
  /\ sensor_data (fst (update_manual_control clock db u)) = sensor_data db.
Proof.
  intros Hkey. unfold update_manual_control.
  destruct (get_manual_control_flags clock db Hkey) as (_ & _ & _ & Hid & Hrows).
  destruct (get_manual_control clock db) as [db1 status].
  cbn [fst snd] in *. unfold Link.keyed, Link.flags.
  cbn [manual_control sensor_data]. rewrite Hid, lookup_insert_eq.
  split_and!; [| reflexivity | exact Hrows].
  intros row [= <-]. reflexivity.
Qed.

Lemma handle_flags (clock : Z) (db : Db) (r : request) :
  Link.keyed db ->
  Link.keyed (fst (handle clock db r))
  /\ Link.flags (fst (handle clock db r))
     = default (Link.flags db) (Link.last_update None [(clock, r)]).
Proof.
  intros Hkey. destruct r as [body | | body]; cbn [handle Link.last_update].
  - destruct (parse_ManualControlUpdate body) as [u |]; [| auto].
    destruct (update_manual_control_flags clock db u Hkey) as (H1 & H2 & _).
    destruct (update_manual_control clock db u) as [db' status]. auto.
  - destruct (get_manual_control_flags clock db Hkey) as (H1 & H2 & _).
    destruct (get_manual_control clock db) as [db' status]. auto.
  - destruct (parse_SensorDataCreate body) as [data |]; auto.
Qed.

Lemma serve_flags (reqs : list (Z * request)) :
  forall db : Db,
    Link.keyed db ->
    Link.keyed (serve db reqs)
    /\ Link.flags (serve db reqs) = default (Link.flags db) (Link.last_update None reqs).
Proof.
  induction reqs as [| [clock r] reqs IH]; intros db Hkey; [auto |].
  destruct (handle_flags clock db r Hkey) as (Hkey' & Hflags).
  destruct (IH _ Hkey') as (Hkey'' & Hserve).
  cbn [serve]. split; [exact Hkey'' |]. rewrite Hserve, Hflags.
  assert (Link.last_update None ((clock, r) :: reqs)
          = Link.last_update (Link.last_update None [(clock, r)]) reqs) as ->.
  { destruct r as [body | | body]; simpl; try reflexivity.
    now destruct (parse_ManualControlUpdate body). }
  rewrite (last_update_acc reqs (Link.last_update None [(clock, r)])).
  destruct (Link.last_update None reqs); [reflexivity |].
  now destruct (Link.last_update None [(clock, r)]).
Qed.

Lemma answer_flags (clock : Z) (db : Db) :
  Link.keyed db ->
  Irrigation.get_manual_control_status
    (Link.poll_answer (snd (handle clock db GetControlStatus)))
  = Link.flags db.
Proof.
  intros Hkey. cbn [handle].
  destruct (get_manual_control_flags clock db Hkey) as (_ & _ & Hrow & _).
  destruct (get_manual_control clock db) as [db' status].
  cbn [fst snd] in *. rewrite <- Hrow. reflexivity.
Qed.

Lemma fresh_db_keyed : Link.keyed fresh_db.
Proof. intros row H. unfold fresh_db in H. simpl in H. now rewrite lookup_empty in H. Qed.

End LinkFacts.

(** X13. On a database whose manual-control row carries its key, after any
    sequence of requests a poll by the controller reads the flags of the
    last PUT that passed validation, whatever was requested since; when no
    PUT passed validation it reads the flags the database held before. *)
Theorem poll_reads_last_update {lax : Backend.Lax} (clock : Z) (db : Backend.Db)
    (reqs : list (Z * Backend.request)) :
  Link.keyed db ->
  snd (Link.poll clock (Backend.serve db reqs))
  = default (Link.flags db) (Link.last_update None reqs).
Proof.
  intros Hkey. destruct (serve_flags reqs db Hkey) as (Hkey' & <-).
  rewrite <- (answer_flags clock _ Hkey'). unfold Link.poll.
  now destruct (Backend.handle clock (Backend.serve db reqs) Backend.GetControlStatus).
Qed.

Lemma poll_reads_last_update_witness :
  snd (Link.poll (lax := Reading.example) 9
         (Backend.serve (lax := Reading.example) Backend.fresh_db
         [ (2%Z, Backend.GetControlStatus);
           (3%Z, Backend.PutControlManual
                   [ ("manual_enabled"%string, JBool true);
                     ("pump_command"%string, JBool false) ]);
           (5%Z, Backend.PutControlManual [ ("manual_enabled"%string, JBool false) ]);
           (7%Z, Backend.PostDataSensor (send_sensor_data None None 50 false "NO")) ]))
  = (true, false).
Proof.
  exact (poll_reads_last_update (lax := Reading.example) 9 Backend.fresh_db
           [ (2%Z, Backend.GetControlStatus);
             (3%Z, Backend.PutControlManual
                     [ ("manual_enabled"%string, JBool true);
                       ("pump_command"%string, JBool false) ]);
             (5%Z, Backend.PutControlManual [ ("manual_enabled"%string, JBool false) ]);
             (7%Z, Backend.PostDataSensor (send_sensor_data None None 50 false "NO")) ]
           fresh_db_keyed).
Defined.

(** Flags that arrive as the number 1 and, under the reading of the
    examples, as the string "true" are applied like the booleans. *)
Example coerced_update_applies :
  snd (Link.poll (lax := Reading.example) 9
         (Backend.serve (lax := Reading.example) Backend.fresh_db
            [ (3%Z, Backend.PutControlManual
                      [ ("manual_enabled"%string, JStr "true");
                        ("pump_command"%string, JNum 1) ]) ]))
  = (true, true).
Proof. reflexivity. Qed.

(** X14. An iteration of the loop that polls, and is answered by the
    server after a sequence of requests, works with the flags of the last
    PUT that passed validation; when that PUT enabled manual mode, the
    decision of the iteration is the commanded pump state and its reason is
    MANUAL, whatever the soil and the predictor say. *)
Theorem loop_follows_last_update {lax : Backend.Lax} (cfg : Config) (s : State) (i : Input)
    (clock : Z) (db : Backend.Db) (reqs : list (Z * Backend.request)) :
  Link.keyed db ->
  poll_due (now i) s = true ->
  control_response i
  = Link.poll_answer (snd (Backend.handle clock (Backend.serve db reqs)
                             Backend.GetControlStatus)) ->
  let seen := default (Link.flags db) (Link.last_update None reqs) in
  out_manual (out (step cfg s i)) = seen
  /\ (fst seen = true ->
      out_decision (out (step cfg s i)) = snd seen
      /\ out_reason (out (step cfg s i)) = "MANUAL"%string).
Proof.
  intros Hkey Hdue Hresp seen.
  destruct (serve_flags reqs db Hkey) as (Hkey' & Hflags).
  assert (out_manual (out (step cfg s i)) = seen) as Hseen.
  { rewrite manual_seen, Hdue, Hresp, (answer_flags clock _ Hkey'). exact Hflags. }
  split; [exact Hseen |]. intros Hen.
  destruct (tick_out cfg s i) as (Hm & _ & Hd & Hr). cbv zeta in Hm, Hd, Hr.
  change (snd (tick cfg s i)) with (out (step cfg s i)) in Hm, Hd, Hr.
  rewrite Hd, Hr, <- Hm, Hseen. unfold decision. rewrite Hen. split; reflexivity.
Qed.

Lemma loop_follows_last_update_witness :
  let reqs := [ (3%Z, Backend.PutControlManual
                        [ ("manual_enabled"%string, JBool true);
                          ("pump_command"%string, JBool true) ]) ] in
  let i := reading 4 90 (Response 200 (Some true) (Some true)) 0 in
  out_manual (out (step loaded boot i)) = (true, true)
  /\ out_decision (out (step loaded boot i)) = true
  /\ out_reason (out (step loaded boot i)) = "MANUAL"%string.
Proof.
  intros reqs i.
  destruct (loop_follows_last_update (lax := Reading.example) loaded boot i 4
              Backend.fresh_db reqs
              fresh_db_keyed eq_refl eq_refl) as (Hseen & Hman).
  split; [exact Hseen |]. exact (Hman eq_refl).
Defined.

(** ** Validation and the tables *)

Section Tables.

Import Backend.

Context {lax : Lax}.

Lemma next_id_above (rows : list DBSensorData) :
  Forall (fun r => (row_id r < next_id rows)%Z) rows.
Proof.
  unfold next_id. induction rows as [| r rows IH]; constructor; simpl.
  - lia.
  - eapply Forall_impl; [| exact IH]. simpl. intros r' Hr'. lia.
Qed.

Lemma create_sensor_data_fresh (clock : Z) (db : Db) (data : SensorDataBase) :
  NoDup (map row_id (sensor_data db)) ->
  NoDup (map row_id (sensor_data (fst (create_sensor_data clock db data)))).
Proof.
  intros Hnodup. unfold create_sensor_data. cbn [fst sensor_data].
  rewrite map_app. cbn [map row_id].
  apply NoDup_app; [exact Hnodup | repeat constructor; intros [] |].
  intros x Hx [<- | []]. apply in_map_iff in Hx as (r & Hid & Hr).
  pose proof (next_id_above (sensor_data db)) as Habove.
  rewrite List.Forall_forall in Habove.
  specialize (Habove r Hr). simpl in Habove. lia.
Qed.

Lemma get_manual_control_rows (clock : Z) (db : Db) :
  sensor_data (fst (get_manual_control clock db)) = sensor_data db.
Proof. unfold get_manual_control. now destruct (manual_control db !! 1%Z). Qed.

Lemma update_manual_control_rows (clock : Z) (db : Db) (u : ManualControlUpdate) :
  sensor_data (fst (update_manual_control clock db u)) = sensor_data db.
Proof.
  unfold update_manual_control. pose proof (get_manual_control_rows clock db) as H.
  destruct (get_manual_control clock db) as [db1 status]. exact H.
Qed.

Lemma handle_sensor_data (clock : Z) (db : Db) (r : request) :
  NoDup (map row_id (sensor_data db)) ->
  (exists added,
     sensor_data (fst (handle clock db r)) = (sensor_data db ++ added)%list
     /\ List.length added = (if Link.stores_reading (clock, r) then 1 else 0)%nat)
  /\ NoDup (map row_id (sensor_data (fst (handle clock db r)))).
Proof.
  intros Hnodup.
  assert (forall db', sensor_data db' = sensor_data db ->
            (exists added, sensor_data db' = (sensor_data db ++ added)%list
                           /\ List.length added = 0%nat)
            /\ NoDup (map row_id (sensor_data db'))) as Hsame.
  { intros db' ->. split; [| exact Hnodup].
    exists []. now rewrite app_nil_r. }
  destruct r as [body | | body]; unfold Link.stores_reading; cbn [handle snd].
  - destruct (parse_ManualControlUpdate body) as [u |]; [| now apply Hsame].
    pose proof (update_manual_control_rows clock db u) as Hrows.
    destruct (update_manual_control clock db u) as [db' status]. exact (Hsame db' Hrows).
  - pose proof (get_manual_control_rows clock db) as Hrows.
    destruct (get_manual_control clock db) as [db' status]. exact (Hsame db' Hrows).
  - destruct (parse_SensorDataCreate body) as [data |]; [| now apply Hsame].
    pose proof (create_sensor_data_fresh clock db data Hnodup) as Hfresh.
    unfold create_sensor_data in *. cbn [fst sensor_data] in *.
    split; [| exact Hfresh]. eexists. split; reflexivity.
Qed.

End Tables.

(** X15. A request body that lacks a key its schema declares is answered
    with status 422 and leaves every table as it was: on the
    manual-control PUT, on the sensor POST and on the pest-report POST. *)
Theorem incomplete_body_rejected {lax : Backend.Lax} (clock : Z) (db : Backend.Db)
    (rows : list Pest.DBPestReport) (body : list (string * json)) (key : string) :
  Backend.field key body = None ->
  (In key ["manual_enabled"; "pump_command"]%string ->
   Backend.handle clock db (Backend.PutControlManual body)
   = (db, Backend.HTTPError 422))
  /\ (In key ["temperature"; "humidity"; "soil_moisture"; "irrigation_status";
              "ai_decision"]%string ->
      Backend.handle clock db (Backend.PostDataSensor body)
      = (db, Backend.HTTPError 422))
  /\ (In key ["pest_name"; "plant_name"; "detection_certainty";
              "recommendation"]%string ->
      Pest.record_pest_report clock rows body = (rows, 422%Z)).
Proof.
  intros Hnone. split_and!; intros Hin; cbn [In] in Hin.
  - assert (Backend.parse_ManualControlUpdate body = None) as Hparse.
    { unfold Backend.parse_ManualControlUpdate.
      destruct Hin as [<- | [<- | []]]; rewrite Hnone; cbn [Backend.as_bool];
        repeat (destruct (Backend.as_bool _); cbn [mbind option_bind]);
        reflexivity. }
    cbn [Backend.handle]. now rewrite Hparse.
  - assert (Backend.parse_SensorDataCreate body = None) as Hparse.
    { unfold Backend.parse_SensorDataCreate.
      destruct Hin as [<- | [<- | [<- | [<- | [<- | []]]]]]; rewrite Hnone;
        cbn [Backend.as_float Backend.as_bool Backend.as_str];
        repeat (first [ destruct (Backend.as_float _)
                      | destruct (Backend.as_bool _)
                      | destruct (Backend.as_str _) ];
                cbn [mbind option_bind]);
        reflexivity. }
    cbn [Backend.handle]. now rewrite Hparse.
  - assert (Pest.parse_PestReportCreate body = None) as Hparse.
    { unfold Pest.parse_PestReportCreate.
      destruct Hin as [<- | [<- | [<- | [<- | []]]]]; rewrite Hnone;
        cbn [Backend.as_float Backend.as_str];
        repeat (first [ destruct (Backend.as_float _)
                      | destruct (Backend.as_str _) ];
                cbn [mbind option_bind]);
        reflexivity. }
    unfold Pest.record_pest_report. now rewrite Hparse.
Qed.

Lemma incomplete_body_rejected_witness :
  Backend.handle (lax := Reading.example) 5 Backend.fresh_db
    (Backend.PutControlManual [ ("manual_enabled"%string, JBool true) ])
  = (Backend.fresh_db, Backend.HTTPError 422).
Proof.
  exact (proj1 (incomplete_body_rejected (lax := Reading.example) 5 Backend.fresh_db []
                  [ ("manual_enabled"%string, JBool true) ] "pump_command"
                  eq_refl)
               (or_intror (or_introl eq_refl))).
Defined.

(** X16. The sensor table only grows, and only by accepted readings:
    after any sequence of requests the rows that were there are still
    there, in place, followed by one new row for each POST of a reading
    that passed validation; and when the keys of the rows were distinct
    before, they are distinct afterwards. *)
Theorem sensor_table_append_only {lax : Backend.Lax} (db : Backend.Db)
    (reqs : list (Z * Backend.request)) :
  List.NoDup (map Backend.row_id (Backend.sensor_data db)) ->
  (exists added : list Backend.DBSensorData,
     Backend.sensor_data (Backend.serve db reqs)
     = (Backend.sensor_data db ++ added)%list
     /\ List.length added = List.length (List.filter Link.stores_reading reqs))
  /\ List.NoDup (map Backend.row_id (Backend.sensor_data (Backend.serve db reqs))).
Proof.
  revert db. induction reqs as [| [clock r] reqs IH]; intros db Hnodup.
  - split; [| exact Hnodup]. exists []. now rewrite app_nil_r.
  - destruct (handle_sensor_data clock db r Hnodup) as ((a1 & Ha1 & Hl1) & Hnd1).
    destruct (IH _ Hnd1) as ((a2 & Ha2 & Hl2) & Hnd2).
    cbn [Backend.serve]. split; [| exact Hnd2].
    exists (a1 ++ a2)%list. split.
    + rewrite Ha2, Ha1. symmetry. apply List.app_assoc.
    + rewrite length_app, Hl1, Hl2. cbn [List.filter].
      now destruct (Link.stores_reading (clock, r)).
Qed.

Lemma sensor_table_append_only_witness :
  let reqs := [ (3%Z, Backend.PostDataSensor (send_sensor_data None None 50 false "NO"));
                (4%Z, Backend.PostDataSensor [ ("temperature"%string, JNum 20) ]);
                (5%Z, Backend.GetControlStatus);
                (6%Z, Backend.PostDataSensor
                        (send_sensor_data (Some 21) (Some 40) 12 true "EMERGENCY")) ] in
  List.NoDup (map Backend.row_id (Backend.sensor_data Backend.fresh_db))
  /\ List.NoDup (map Backend.row_id
                   (Backend.sensor_data
                      (Backend.serve (lax := Reading.example) Backend.fresh_db reqs))).
Proof.
  intros reqs.
  assert (List.NoDup (map Backend.row_id (Backend.sensor_data Backend.fresh_db)))
    as Hfresh by constructor.
  split; [exact Hfresh |].
  exact (proj2 (sensor_table_append_only (lax := Reading.example)
                  Backend.fresh_db reqs Hfresh)).
Defined.

(** ** Pest reports *)

Section PestFacts.

Local Open Scope string_scope.

Lemma healthy_entry :
  Pest.PEST_RECOMMENDATIONS !! "Tomato___healthy"
  = Some {| Pest.pest_name := "Healthy";
            Pest.recommendation :=
              "The plant is healthy. Continue monitoring and irrigation as needed." |}.
Proof. vm_compute. reflexivity. Qed.

Lemma healthy_label_gated : Design.contains "healthy" (Pest.lower "Tomato___healthy") = true.
Proof. vm_compute. reflexivity. Qed.

End PestFacts.

(** X17. [send_pest_report] never fails on its table lookup; it returns
    without sending exactly for the label Tomato___healthy; and for every
    other label the body it posts passes the validation of the server,
    which answers 201 and appends one row holding the configured plant
    name, the confidence as detection_certainty, and the pest name and
    recommendation of the label's entry, or those of the entry
    Tomato___healthy when the label has none. *)
Theorem pest_report_round_trip {lax : Backend.Lax} (pred_key : string) (confidence : Q)
    (clock : Z) (rows : list Pest.DBPestReport) :
  match Pest.send_pest_report pred_key confidence with
  | Pest.KeyError => False
  | Pest.NotSent => pred_key = "Tomato___healthy"%string
  | Pest.Posted body =>
      pred_key <> "Tomato___healthy"%string
      /\ exists (a : Pest.advice) (row : Pest.DBPestReport),
           (Pest.PEST_RECOMMENDATIONS !! pred_key = Some a
            \/ Pest.PEST_RECOMMENDATIONS !! pred_key = None
               /\ Pest.PEST_RECOMMENDATIONS !! "Tomato___healthy"%string = Some a)
           /\ Pest.record_pest_report clock rows body = ((rows ++ [row])%list, 201%Z)
           /\ Pest.rep_data row
              = {| Pest.rep_pest_name := Pest.pest_name a;
                   Pest.rep_plant_name := Pest.PLANT_NAME;
                   Pest.rep_detection_certainty := confidence;
                   Pest.rep_recommendation := Pest.recommendation a |}
  end.
Proof.
  unfold Pest.send_pest_report. rewrite healthy_entry.
  destruct (String.eqb_spec pred_key "Tomato___healthy") as [-> | Hne]; [reflexivity |].
  split; [exact Hne |].
  destruct (Pest.PEST_RECOMMENDATIONS !! pred_key) as [a |] eqn:Ha; cbn [default].
  - exists a. eexists. split; [left; reflexivity |]. split; reflexivity.
  - eexists. eexists. split; [right; split; [reflexivity | exact healthy_entry] |].
    split; reflexivity.
Qed.

(** X18. The camera loop sends nothing exactly when the confidence is
    below CONF_TH or the label contains healthy in any mix of capitals;
    and whenever it calls [send_pest_report] a report is posted, with the
    confidence as detection_certainty: the branch of [send_pest_report]
    that returns without sending is never taken from the loop. *)
Theorem camera_gate (pred : string) (conf : Q) :
  (Pest.process_frame pred conf = None
   <-> conf < Pest.CONF_TH \/ Design.contains "healthy" (Pest.lower pred) = true)
  /\ forall r : Pest.sent,
       Pest.process_frame pred conf = Some r ->
       exists body,
         r = Pest.Posted body
         /\ Backend.field "detection_certainty" body = Some (JNum conf)
         /\ Backend.field "plant_name" body = Some (JStr Pest.PLANT_NAME).
Proof.
  unfold Pest.process_frame.
  destruct (Qle_bool Pest.CONF_TH conf) eqn:Hc.
  - apply Qle_bool_iff in Hc.
    destruct (Design.contains "healthy" (Pest.lower pred)) eqn:Hh; cbn [negb].
    + split; [split; auto | intros r Hr; discriminate Hr].
    + split.
      * split; [discriminate |]. intros [Hlt | Hf]; [| discriminate Hf].
        apply Qlt_not_le in Hlt. contradiction.
      * intros r [= <-]. unfold Pest.send_pest_report. rewrite healthy_entry.
        destruct (String.eqb_spec pred "Tomato___healthy") as [-> | _].
        { rewrite healthy_label_gated in Hh. discriminate Hh. }
        eexists. split; [reflexivity |]. split; reflexivity.
  - split; [| intros r Hr; discriminate Hr].
    split; [intros _; left | reflexivity].
    apply Qnot_le_lt. intros Hle. apply Qle_bool_iff in Hle. congruence.
Qed.

(** X19. A confident prediction whose label has no entry in
    PEST_RECOMMENDATIONS, and does not contain healthy, is reported to the
    server as the pest Healthy, with the recommendation of the healthy
    entry. *)
Theorem unknown_label_filed_healthy (pred : string) (conf : Q) :
  Pest.PEST_RECOMMENDATIONS !! pred = None ->
  Pest.CONF_TH <= conf ->
  Design.contains "healthy" (Pest.lower pred) = false ->
  exists body,
    Pest.process_frame pred conf = Some (Pest.Posted body)
    /\ Backend.field "pest_name" body = Some (JStr "Healthy")
    /\ Backend.field "recommendation" body
       = Some (JStr "The plant is healthy. Continue monitoring and irrigation as needed.")
    /\ Backend.field "detection_certainty" body = Some (JNum conf).
Proof.
  intros Hnone Hconf Hh. unfold Pest.process_frame.
  apply Qle_bool_iff in Hconf. rewrite Hconf, Hh. cbn [negb].
  unfold Pest.send_pest_report. rewrite healthy_entry, Hnone. cbn [default].
  destruct (String.eqb_spec pred "Tomato___healthy") as [-> | _].
  { rewrite healthy_entry in Hnone. discriminate Hnone. }
  eexists. split_and!; reflexivity.
Qed.

Lemma unknown_label_filed_healthy_witness :
  exists body,
    Pest.process_frame "Tomato___Early_blight" (9 # 10) = Some (Pest.Posted body)
    /\ Backend.field "pest_name" body = Some (JStr "Healthy").
Proof.
  assert (Pest.CONF_TH <= 9 # 10) as Hconf by (unfold Pest.CONF_TH; lra).
  destruct (unknown_label_filed_healthy "Tomato___Early_blight" (9 # 10)
              eq_refl Hconf eq_refl) as (body & Hsent & Hname & _).
  exists body. split; [exact Hsent | exact Hname].
Defined.
